(** * r.incora: rule-based land-cover classification, change detection and
    post-processing on GRASS GIS rasters

    The three scripts of the repository ([v.incora.training_data],
    [r.incora.change], [r.incora.postproc]) drive GRASS modules: they build
    [r.mapcalc] expressions, set and remove the raster MASK, change the
    computational region and call a handful of raster primitives.  This
    development embeds

    - the [r.mapcalc] expression language with GRASS's null rules,
    - a GRASS session (raster maps, MASK, region, saved regions) together with
      the Python globals of the scripts, threaded through a state-and-failure
      monad,
    - the three [main] functions and their [cleanup] handlers,

    and proves properties of the rasters they produce. *)

From Stdlib Require Import ZArith QArith Qround List String Ascii Bool Lia.
Import ListNotations.

Set Implicit Arguments.

(** ** Map names

    The scripts name raster maps by strings: option values typed by the user,
    the fixed name [MASK], and temporary names that end in the process id.
    A name is kept here by the way the source builds it; two names built
    differently denote different maps. *)

Inductive name : Type :=
| MASK                                  (* the raster named "MASK" *)
| Opt (key : string)                    (* options[key] *)
| Item (key : string) (i : nat)         (* options[key].split(",")[i] *)
| Tmp (prefix : string)                 (* "<prefix>_<pid>" *)
| TmpOf (item : name) (tag : string).   (* "<item>_<tag>_<pid>" *)

Fixpoint name_eqb (a b : name) : bool :=
  match a, b with
  | MASK, MASK => true
  | Opt k, Opt k' => String.eqb k k'
  | Item k i, Item k' i' => String.eqb k k' && Nat.eqb i i'
  | Tmp s, Tmp s' => String.eqb s s'
  | TmpOf n t, TmpOf n' t' => name_eqb n n' && String.eqb t t'
  | _, _ => false
  end.

(** ** The r.mapcalc expression language *)

Module Mapcalc.

(** A cell holds a number or is null.  Integer (CELL) and floating point
    (FCELL, DCELL) values are both read as rationals. *)
Definition cell : Type := option Q.

Inductive binop : Type :=
| Add | Gt | Ge | Lt | Le | Eq | Ne   (* +  >  >=  <  <=  ==  != *)
| And                                  (* &&  *)
| And2 | Or2.                          (* &&& and ||| *)

Inductive expr : Type :=
| Map (m : name)
| Num (q : Q)
| Null                                 (* null() *)
| IsNull (e : expr)                    (* isnull(e) *)
| Not (e : expr)                       (* not(e) *)
| Round (e : expr)                     (* round(e) *)
| If (c a b : expr)                    (* if(c,a,b) *)
| Bin (op : binop) (a b : expr).

(** [out = e] *)
Record assignment : Type := Assign { target : name; body : expr }.

Definition truth (b : bool) : cell := Some (if b then 1 else 0).

Definition nonzero (x : Q) : bool := negb (Qeq_bool x 0).

Definition Qgtb (x y : Q) : bool := negb (Qle_bool x y).

(** Operators that give null as soon as one argument is null. *)
Definition strict (op : binop) (x y : Q) : cell :=
  match op with
  | Add => Some (x + y)
  | Gt => truth (Qgtb x y)
  | Ge => truth (Qle_bool y x)
  | Lt => truth (Qgtb y x)
  | Le => truth (Qle_bool x y)
  | Eq => truth (Qeq_bool x y)
  | Ne => truth (negb (Qeq_bool x y))
  | And | And2 => truth (nonzero x && nonzero y)
  | Or2 => truth (nonzero x || nonzero y)
  end.

(** [x &&& false == false] and [false &&& x == false] also for a null x. *)
Definition and2 (a b : cell) : cell :=
  match a, b with
  | Some x, Some y => truth (nonzero x && nonzero y)
  | Some x, None | None, Some x => if nonzero x then None else truth false
  | None, None => None
  end.

(** [x ||| true == true] and [true ||| x == true] also for a null x. *)
Definition or2 (a b : cell) : cell :=
  match a, b with
  | Some x, Some y => truth (nonzero x || nonzero y)
  | Some x, None | None, Some x => if nonzero x then truth true else None
  | None, None => None
  end.

Definition apply (op : binop) (a b : cell) : cell :=
  match op with
  | And2 => and2 a b
  | Or2 => or2 a b
  | _ => match a, b with
         | Some x, Some y => strict op x y
         | _, _ => None
         end
  end.

(** The value of an expression at one pixel; [rd m] is the cell read from
    map [m] there. *)
Fixpoint eval (rd : name -> cell) (e : expr) : cell :=
  match e with
  | Map m => rd m
  | Num q => Some q
  | Null => None
  | IsNull e => truth (match eval rd e with None => true | Some _ => false end)
  | Not e => match eval rd e with
             | Some x => truth (negb (nonzero x))
             | None => None
             end
  | Round e => match eval rd e with
               | Some x => Some (inject_Z (Qfloor (x + (1 # 2))))
               | None => None
               end
  | If c a b => match eval rd c with
                | None => None
                | Some x => if nonzero x then eval rd a else eval rd b
                end
  | Bin op a b => apply op (eval rd a) (eval rd b)
  end.

(** The maps an expression reads. *)
Fixpoint maps_of (e : expr) : list name :=
  match e with
  | Map m => [m]
  | Num _ | Null => []
  | IsNull e | Not e | Round e => maps_of e
  | If c a b => maps_of c ++ maps_of a ++ maps_of b
  | Bin _ a b => maps_of a ++ maps_of b
  end.

End Mapcalc.
Export Mapcalc.

Declare Scope mc_scope.
Delimit Scope mc_scope with mc.
Bind Scope mc_scope with expr.
Coercion Map : name >-> expr.
Notation "a + b" := (Bin Add a b) : mc_scope.
Notation "a > b" := (Bin Gt a b) : mc_scope.
Notation "a >= b" := (Bin Ge a b) : mc_scope.
Notation "a < b" := (Bin Lt a b) : mc_scope.
Notation "a <= b" := (Bin Le a b) : mc_scope.
Notation "a == b" := (Bin Eq a b) : mc_scope.
Notation "a != b" := (Bin Ne a b) (at level 70, no associativity) : mc_scope.
Notation "a && b" := (Bin And a b) : mc_scope.
Notation "a &&& b" := (Bin And2 a b) (at level 40, left associativity) : mc_scope.
Notation "a ||| b" := (Bin Or2 a b) (at level 50, left associativity) : mc_scope.
Notation "x ':==' e" := (Assign x e%mc) (at level 95, no associativity).

(** ** A GRASS session and the scripts' globals *)

Module Grass.

Definition pixel : Type := (Z * Z)%type.

Definition raster : Type := pixel -> cell.

(** The computational region: bounds and cell size. *)
Record region : Type := Region {
  north : Z; south : Z; east : Z; west : Z;
  nsres : Z; ewres : Z
}.

(** [g.region -a res=r]: the cell size becomes [r] and the bounds are grown
    outwards to multiples of it. *)
Definition align_res (r : Z) (g : region) : region :=
  {| north := r * - ((- north g) / r);
     south := r * (south g / r);
     east := r * - ((- east g) / r);
     west := r * (west g / r);
     nsres := r; ewres := r |}.

Inductive area_mode : Type := greater | lesser.

(** The raster primitives the scripts call and do not implement.  Each one
    works in the current region on the maps as read through the MASK. *)
Class Primitives : Type := {
  (* r.buffer input distances=d *)
  buffer : region -> raster -> Q -> raster;
  (* r.reclass.area input mode value *)
  reclass_area : region -> raster -> area_mode -> Q -> raster;
  (* r.quantile input percentiles=p: the lines it prints *)
  quantile : region -> raster -> Q -> list string;
  (* r.grow.distance input value= *)
  grow_distance : region -> raster -> raster;
  (* r.change.stats input=a,b flags=cl[f] [window_size] *)
  change_stats : region -> raster -> raster -> option Z -> raster;
  (* r.change.info input=a,b method=gain1 size step *)
  change_info : region -> raster -> raster -> Z -> Q -> raster;
  (* r.univar -g map: the value of n *)
  univar_n : region -> raster -> Z;
  (* Python's float() on a string *)
  float : string -> option Q
}.

Inductive event : Type :=
| Call (module : string) (maps : list name) (at_region : region)
| Warning (about : name).

Record world : Type := World {
  (* the mapset *)
  rasters : name -> option raster;
  vectors : name -> bool;
  regions : name -> option region;
  current : region;
  (* the environment of the process *)
  overwrite : bool;                 (* GRASS_OVERWRITE *)
  installed : string -> bool;       (* grass.find_program *)
  (* the modules run so far, oldest first *)
  log : list event;
  (* the globals of the script *)
  rm_rasters : list name;
  rm_vectors : list name;
  rm_regions : list name;
  oldregion : option name;
  oldmask : option name
}.

Definition upd {A : Type} (n : name) (v : A) (f : name -> A) : name -> A :=
  fun m => if name_eqb n m then v else f m.

Definition with_rasters (f : name -> option raster) (w : world) : world :=
  World f (vectors w) (regions w) (current w) (overwrite w) (installed w)
    (log w) (rm_rasters w) (rm_vectors w) (rm_regions w) (oldregion w) (oldmask w).

Definition with_vectors (f : name -> bool) (w : world) : world :=
  World (rasters w) f (regions w) (current w) (overwrite w) (installed w)
    (log w) (rm_rasters w) (rm_vectors w) (rm_regions w) (oldregion w) (oldmask w).

Definition with_regions (f : name -> option region) (w : world) : world :=
  World (rasters w) (vectors w) f (current w) (overwrite w) (installed w)
    (log w) (rm_rasters w) (rm_vectors w) (rm_regions w) (oldregion w) (oldmask w).

Definition with_current (g : region) (w : world) : world :=
  World (rasters w) (vectors w) (regions w) g (overwrite w) (installed w)
    (log w) (rm_rasters w) (rm_vectors w) (rm_regions w) (oldregion w) (oldmask w).

Definition with_log (l : list event) (w : world) : world :=
  World (rasters w) (vectors w) (regions w) (current w) (overwrite w) (installed w)
    l (rm_rasters w) (rm_vectors w) (rm_regions w) (oldregion w) (oldmask w).

Definition with_rm_rasters (l : list name) (w : world) : world :=
  World (rasters w) (vectors w) (regions w) (current w) (overwrite w) (installed w)
    (log w) l (rm_vectors w) (rm_regions w) (oldregion w) (oldmask w).

Definition with_oldregion (o : option name) (w : world) : world :=
  World (rasters w) (vectors w) (regions w) (current w) (overwrite w) (installed w)
    (log w) (rm_rasters w) (rm_vectors w) (rm_regions w) o (oldmask w).

Definition with_oldmask (o : option name) (w : world) : world :=
  World (rasters w) (vectors w) (regions w) (current w) (overwrite w) (installed w)
    (log w) (rm_rasters w) (rm_vectors w) (rm_regions w) (oldregion w) o.

(** *** Running a script: state and fatal errors

    A fatal error ([grass.fatal], a module that fails, a Python exception)
    stops the script; the world it leaves is kept, since [cleanup] runs on
    it. *)

Inductive outcome (A : Type) : Type :=
| Done (a : A) (w : world)
| Fatal (msg : string) (w : world).

Arguments Fatal {A} msg w.

Definition grass (A : Type) : Type := world -> outcome A.

Definition ret {A : Type} (a : A) : grass A := fun w => Done a w.

Definition bind {A B : Type} (c : grass A) (k : A -> grass B) : grass B :=
  fun w => match c w with
           | Done a w' => k a w'
           | Fatal msg w' => Fatal msg w'
           end.

Definition fatal {A : Type} (msg : string) : grass A := fun w => Fatal msg w.

Definition get : grass world := fun w => Done w w.

Definition modify (f : world -> world) : grass unit := fun w => Done tt (f w).

Definition final {A : Type} (o : outcome A) : world :=
  match o with Done _ w | Fatal _ w => w end.

(** What the caller gets: the value returned, or the error message. *)
Definition returned {A : Type} (o : outcome A) : A + string :=
  match o with Done a _ => inl a | Fatal msg _ => inr msg end.

Definition succeeded {A : Type} (o : outcome A) : bool :=
  match o with Done _ _ => true | Fatal _ _ => false end.

End Grass.
Export Grass.

Declare Scope grass_scope.
Delimit Scope grass_scope with grass.
Bind Scope grass_scope with grass.
Notation "x <- c ;; k" := (bind c (fun x => k))
  (at level 61, c at next level, right associativity) : grass_scope.
Notation "c ;; k" := (bind c (fun _ => k))
  (at level 61, right associativity) : grass_scope.
Open Scope grass_scope.
Open Scope string_scope.

(** ** The GRASS modules the scripts run *)

Module Modules.
Section Modules.
Context {P : Primitives}.

(** Every module that is run is written to the log with the region it ran
    in. *)
Definition call (module : string) (maps : list name) : grass unit :=
  modify (fun w => with_log (log w ++ [Call module maps (current w)]) w).

Definition warning (about : name) : grass unit :=
  modify (fun w => with_log (log w ++ [Warning about]) w).

Definition exists_raster (w : world) (n : name) : bool :=
  match rasters w n with Some _ => true | None => false end.

(** [grass.find_file(name=n, element="raster")["file"]] *)
Definition find_file (n : name) : grass bool :=
  w <- get ;; ret (exists_raster w n).

(** [grass.find_program(m, "--help")] *)
Definition find_program (m : string) : grass bool :=
  w <- get ;; ret (installed w m).

Definition need (n : name) : grass raster :=
  w <- get ;;
  match rasters w n with
  | Some r => ret r
  | None => fatal "Raster map not found"
  end.

(** A cell is masked out where the raster MASK is null or zero. *)
Definition unmasked (mask : option raster) (p : pixel) : bool :=
  match mask with
  | None => true
  | Some m => match m p with Some v => nonzero v | None => false end
  end.

Definition through_mask (mask : option raster) (r : raster) : raster :=
  fun p => if unmasked mask p then r p else None.

(** The cell of map [m] at [p] as a module reads it; a map that does not
    exist reads as null. *)
Definition seen (store : name -> option raster) (m : name) (p : pixel) : cell :=
  match store m with
  | Some r => through_mask (store MASK) r p
  | None => None
  end.

(** An expression evaluated over the mapset, cell by cell. *)
Definition evaluate (store : name -> option raster) (e : expr) : raster :=
  fun p => eval (fun m => seen store m p) e.

(** A map as a module reads it. *)
Definition read_raster (n : name) : grass raster :=
  r <- need n ;; w <- get ;; ret (through_mask (rasters w MASK) r).

Fixpoint read_rasters (ns : list name) : grass (list raster) :=
  match ns with
  | [] => ret []
  | n :: rest => r <- read_raster n ;; rs <- read_rasters rest ;; ret (r :: rs)
  end.

Definition write_raster (n : name) (r : raster) : grass unit :=
  modify (fun w => with_rasters (upd n (Some r) (rasters w)) w).

Definition delete_raster (n : name) : grass unit :=
  modify (fun w => with_rasters (upd n None (rasters w)) w).

(** [r.mapcalc expression="out = e"] *)
Definition r_mapcalc (a : assignment) : grass unit :=
  call "r.mapcalc" (target a :: maps_of (body a)) ;;
  w <- get ;;
  if forallb (exists_raster w) (maps_of (body a))
  then write_raster (target a) (evaluate (rasters w) (body a))
  else fatal "Raster map not found".

(** The categories of [maskcats]: a list of values, or [*]. *)
Inductive cats : Type := all_cats | only (values : list Z).

Definition in_cats (c : cats) (v : Q) : bool :=
  match c with
  | all_cats => true
  | only values => existsb (fun z => Qeq_bool v (inject_Z z)) values
  end.

(** The MASK made from a raster: 1 on the cells whose category is in
    [maskcats], null elsewhere. *)
Definition mask_of (maskcats : cats) (r : raster) : raster :=
  fun p => match r p with
           | Some v => if in_cats maskcats v then Some 1 else None
           | None => None
           end.

(** [r.mask raster=n maskcats=c]: refused when a MASK exists, unless
    overwriting is on. *)
Definition r_mask (n : name) (maskcats : cats) : grass unit :=
  call "r.mask" [n] ;;
  w <- get ;;
  (if exists_raster w MASK
   then if overwrite w then delete_raster MASK
        else fatal "MASK already found in current mapset. Delete first or overwrite."
   else ret tt) ;;
  r <- need n ;;
  write_raster MASK (mask_of maskcats r).

(** [r.mask -r] *)
Definition r_mask_remove : grass unit :=
  call "r.mask" [] ;;
  w <- get ;;
  if exists_raster w MASK then delete_raster MASK
  else fatal "No existing MASK to remove".

(** [g.remove -f type=raster name=n] *)
Definition g_remove_raster (n : name) : grass unit :=
  call "g.remove" [n] ;; delete_raster n.

(** [g.remove -f type=vector name=n] *)
Definition g_remove_vector (n : name) : grass unit :=
  call "g.remove" [n] ;;
  modify (fun w => with_vectors (upd n false (vectors w)) w).

(** [g.remove -f type=region name=n] *)
Definition g_remove_region (n : name) : grass unit :=
  call "g.remove" [n] ;;
  modify (fun w => with_regions (upd n None (regions w)) w).

(** [g.rename raster=old,new] *)
Definition g_rename_raster (old new : name) : grass unit :=
  call "g.rename" [old; new] ;;
  r <- need old ;;
  delete_raster old ;;
  write_raster new r.

(** [g.region save=n] *)
Definition g_region_save (n : name) : grass unit :=
  call "g.region" [] ;;
  modify (fun w => with_regions (upd n (Some (current w)) (regions w)) w).

(** [g.region -ap res=r] *)
Definition g_region_res (r : Z) : grass unit :=
  call "g.region" [] ;;
  modify (fun w => with_current (align_res r (current w)) w).

(** [g.region region=n] *)
Definition g_region_restore (n : name) : grass unit :=
  call "g.region" [] ;;
  w <- get ;;
  match regions w n with
  | Some g => modify (with_current g)
  | None => fatal "Region not found"
  end.

(** [r.buffer input output distances=d units=meters] *)
Definition r_buffer (input output : name) (distances : Q) : grass unit :=
  call "r.buffer" [input; output] ;;
  r <- read_raster input ;;
  w <- get ;;
  write_raster output (buffer (current w) r distances).

(** [r.reclass.area input output mode value] *)
Definition r_reclass_area (input output : name) (mode : area_mode) (value : Q)
  : grass unit :=
  call "r.reclass.area" [input; output] ;;
  r <- read_raster input ;;
  w <- get ;;
  write_raster output (reclass_area (current w) r mode value).

(** [r.grow.distance input value=output] *)
Definition r_grow_distance (input value : name) : grass unit :=
  call "r.grow.distance" [input; value] ;;
  r <- read_raster input ;;
  w <- get ;;
  write_raster value (grow_distance (current w) r).

(** [r.quantile input percentiles=p], the lines of its output *)
Definition r_quantile (input : name) (percentiles : Q) : grass (list string) :=
  call "r.quantile" [input] ;;
  r <- read_raster input ;;
  w <- get ;;
  ret (quantile (current w) r percentiles).

(** [r.univar -g map], the value of [n] *)
Definition r_univar (map : name) : grass Z :=
  call "r.univar" [map] ;;
  r <- read_raster map ;;
  w <- get ;;
  ret (univar_n (current w) r).

(** [r.patch]: at each cell the first input that is not null. *)
Fixpoint patch (rs : list raster) (p : pixel) : cell :=
  match rs with
  | [] => None
  | r :: rest => match r p with
                 | Some v => Some v
                 | None => patch rest p
                 end
  end.

(** [r.patch input=ns output] *)
Definition r_patch (input : list name) (output : name) : grass unit :=
  call "r.patch" (output :: input) ;;
  rs <- read_rasters input ;;
  write_raster output (patch rs).

(** [r.change.stats input=a,b output flags=cl[f] [window_size]] *)
Definition r_change_stats (a b output : name) (window_size : option Z)
  : grass unit :=
  call "r.change.stats" [a; b; output] ;;
  ra <- read_raster a ;;
  rb <- read_raster b ;;
  w <- get ;;
  write_raster output (change_stats (current w) ra rb window_size).

(** [r.change.info input=a,b method=gain1 size step output] *)
Definition r_change_info (a b : name) (size : Z) (step : Q) (output : name)
  : grass unit :=
  call "r.change.info" [a; b; output] ;;
  ra <- read_raster a ;;
  rb <- read_raster b ;;
  w <- get ;;
  write_raster output (change_info (current w) ra rb size step).

(** [r.sample.category input output npoints]: a vector map of points. *)
Definition r_sample_category (input output : name) : grass unit :=
  call "r.sample.category" [input; output] ;;
  _ <- read_raster input ;;
  modify (fun w => with_vectors (upd output true (vectors w)) w).

(** [v.db.renamecolumn], [v.db.addcolumn], [v.db.update] on a vector map. *)
Definition v_db (module : string) (map : name) : grass unit :=
  call module [map] ;;
  w <- get ;;
  if vectors w map then ret tt else fatal "Vector map not found".

(** [rm_rasters.append(n)] *)
Definition rm_rasters_append (n : name) : grass unit :=
  modify (fun w => with_rm_rasters (rm_rasters w ++ [n]) w).

(** [for x in l: f(x)] *)
Fixpoint for_each {A : Type} (l : list A) (f : A -> grass unit) : grass unit :=
  match l with
  | [] => ret tt
  | x :: rest => f x ;; for_each rest f
  end.

(** A script registers [cleanup] with [atexit] and runs [main]: the handler
    runs when [main] returns and when it stops on a fatal error. *)
Definition script (main cleanup : grass unit) (w : world) : outcome unit :=
  match main w with
  | Done _ w' => cleanup w'
  | Fatal msg w' => Fatal msg (final (cleanup w'))
  end.

End Modules.
End Modules.
Export Modules.

(** ** r.incora.postproc *)

Module Postproc.
Section Postproc.
Context {P : Primitives}.

Definition raster_7classes : name := Opt "classification".
Definition coastline : name := Opt "coastline".
Definition dem : name := Opt "elevation".
Definition water : name := Opt "water".
Definition roads : name := Opt "roads".
Definition output : name := Opt "output".

Definition water_elevation : name := Tmp "water_elevation".
Definition postproc_raster2 : name := Tmp "postproc_raster2".
Definition grow_raster : name := Tmp "grow_distance_raster".
Definition rounded : name := Tmp "rounded_grow_distance_raster".
Definition coast_corrected : name := Tmp "coast_corrected".
Definition elevation_corrected : name := Tmp "elevation_corrected".
Definition agr_only : name := Tmp "agr_only".
Definition small_areas : name := Tmp "areas_smaller_1_5_ha".
Definition agr_corrected : name := Tmp "agr_corrected".

(** "rebrand high altitude water pixels to mixed class to remove them
    (mountain shadow)" *)
Definition water_elevation_expression : assignment :=
  water_elevation :==
    If ((dem > Num 1000) && (raster_7classes == Num 30))
       (Num 70) raster_7classes.

Definition rebrand_high_water : grass unit :=
  rm_rasters_append water_elevation ;;
  r_mapcalc water_elevation_expression.

Definition remove_mixed : grass unit :=
  rm_rasters_append postproc_raster2 ;;
  r_mapcalc (postproc_raster2 :==
    If (water_elevation == Num 70) Null water_elevation).

Definition fill_gaps : grass unit :=
  rm_rasters_append grow_raster ;;
  r_grow_distance postproc_raster2 grow_raster ;;
  rm_rasters_append rounded ;;
  r_mapcalc (rounded :== Round grow_raster).

(** "reclassify urban areas outside coastline to bare soil" *)
Definition correct_coast : grass unit :=
  rm_rasters_append coast_corrected ;;
  r_mapcalc (coast_corrected :==
    If (IsNull coastline &&& (rounded == Num 40)) (Num 50) rounded).

(** "reclassify urban areas > 1500m to bare soil and agriculture > 900 m to
    low vegetation" *)
Definition correct_elevation : grass unit :=
  rm_rasters_append elevation_corrected ;;
  r_mapcalc (elevation_corrected :==
    If ((dem > Num 1500) && (coast_corrected == Num 40)) (Num 50)
       (If ((dem > Num 800) && (coast_corrected == Num 60)) (Num 20)
           coast_corrected)).

(** "reclassifiy agriculture < 1.5 ha to low vegetation" *)
Definition correct_small_agriculture : grass unit :=
  rm_rasters_append agr_only ;;
  r_mapcalc (agr_only :==
    If (elevation_corrected == Num 60) (Num 60) Null) ;;
  rm_rasters_append small_areas ;;
  r_reclass_area agr_only small_areas lesser (15 # 10) ;;
  rm_rasters_append agr_corrected ;;
  r_mapcalc (agr_corrected :==
    If (IsNull small_areas) elevation_corrected (Num 20)).

(** "remove builtup areas on water" *)
Definition output_expression : assignment :=
  output :==
    If (Not (IsNull water) && IsNull roads && (agr_corrected == Num 40))
       (Num 30) agr_corrected.

Definition remove_builtup_on_water : grass unit :=
  r_mapcalc output_expression.

Definition main : grass unit :=
  rebrand_high_water ;;
  remove_mixed ;;
  fill_gaps ;;
  correct_coast ;;
  correct_elevation ;;
  correct_small_agriculture ;;
  remove_builtup_on_water.

Definition cleanup : grass unit :=
  w <- get ;;
  for_each (rm_rasters w)
    (fun rmrast =>
       found <- find_file rmrast ;;
       if found then g_remove_raster rmrast else ret tt).

End Postproc.
End Postproc.

(** ** Python strings *)

(** [s.split(sep)] for a one-character separator. *)
Fixpoint split_on (sep : ascii) (s : string) : list string :=
  match s with
  | EmptyString => [EmptyString]
  | String c rest =>
      if Ascii.eqb c sep then EmptyString :: split_on sep rest
      else match split_on sep rest with
           | field :: fields => String c field :: fields
           | [] => [String c EmptyString]
           end
  end.

(** Truth of a string, [len(s) > 0]. *)
Definition given (s : string) : bool := negb (String.eqb s "").

(** ** r.incora.change *)

Module Change.
Section Change.
Context {P : Primitives}.

(** The options of the script.  [gain_thresh] and [minsize] are strings that
    the script pastes into an expression or hands on; they are kept as the
    numbers they spell. *)
Record options : Type := Options {
  input : string;
  output_cd : string;
  output_water : string;
  output_bu : string;
  output_forest : string;
  output_lowveg : string;
  output_bare : string;
  output_agr : string;
  minsize : Q;
  mode_winsize : Z;
  gain_winsize : Z;
  gain_thresh : Q
}.

Definition cd_temprast : name := Tmp "cd_tempraster".
Definition gainmap : name := Tmp "gainmap".

(** [output_list], each string with the map it names. *)
Definition output_list (o : options) : list (string * name) :=
  [ (output_forest o, Opt "output_forest");
    (output_lowveg o, Opt "output_lowveg");
    (output_water o, Opt "output_water");
    (output_bu o, Opt "output_bu");
    (output_bare o, Opt "output_bare");
    (output_agr o, Opt "output_agr") ].

Definition values_list : list Q := [10; 20; 30; 40; 50; 60]%Q.

(** [output_used] and [values_used], side by side. *)
Fixpoint used (outputs : list (string * name)) (values : list Q)
  : list (name * Q) :=
  match outputs, values with
  | (item, map) :: outputs', v :: values' =>
      if given item then (map, v) :: used outputs' values'
      else used outputs' values'
  | _, _ => []
  end.

(** [outrast_cd]: the map named by the user, or a temporary one. *)
Definition outrast_cd (o : options) : name :=
  if given (output_cd o) then Opt "output_cd" else Tmp "cd_rast".

(** After the first loop [item] is the last element of [output_list]. *)
Definition tempraster_1 : name := TmpOf (Opt "output_agr") "tmp1".

Definition tempraster_2 (item : name) : name := TmpOf item "tmp2".

(** "correct the outrast_cd raster with the information gain" *)
Definition eq (o : options) : assignment :=
  outrast_cd o :== If (gainmap > Num (gain_thresh o)) cd_temprast (Num 0).

(** "this binary raster contains where changes occured" *)
Definition expression_1 (o : options) : assignment :=
  tempraster_1 :==
    If ((gainmap > Num (gain_thresh o)) && (outrast_cd o != Num 0))
       (Num 1) Null.

(** "this raster contains where changes occured and one of the input rasters
    contains the respective class (1 = map1, 2 = map2)" *)
Definition expression_2 (item : name) (value : Q) : assignment :=
  tempraster_2 item :==
    If ((tempraster_1 == Num 1) && (Item "input" 0 == Num value)) (Num 1)
       (If ((tempraster_1 == Num 1) && (Item "input" 1 == Num value)) (Num 2)
           Null).

(** [output_used] with [values_used]. *)
Definition output_used (o : options) : list (name * Q) :=
  used (output_list o) values_list.

Definition check_input (o : options) : grass unit :=
  let input_maps := split_on "," (input o) in
  if negb (Nat.eqb (List.length input_maps) 2)
  then fatal "Input must consist of two raster maps" else ret tt.

(** "Calculating change detection..." *)
Definition change_detection (o : options) (flag_f : bool) : grass unit :=
  (if given (output_cd o) then ret tt
   else rm_rasters_append (outrast_cd o)) ;;
  stats <- find_program "r.change.stats" ;;
  (if negb stats
   then fatal "The 'r.change.stats' module was not found, install it first:"
   else ret tt) ;;
  info <- find_program "r.change.info" ;;
  (if negb info
   then fatal "The 'r.change.info' module was not found, install it first:"
   else ret tt) ;;
  rm_rasters_append cd_temprast ;;
  r_change_stats (Item "input" 0) (Item "input" 1) cd_temprast
    (if flag_f then Some (mode_winsize o) else None).

(** "Calculating Information Gain..." *)
Definition information_gain (o : options) : grass unit :=
  rm_rasters_append gainmap ;;
  let steps := (inject_Z (gain_winsize o) / 2)%Q in
  r_change_info (Item "input" 0) (Item "input" 1) (gain_winsize o) steps
    gainmap.

(** The change raster gated by the information gain, and the mask of the
    changes that remain. *)
Definition gate (o : options) : grass unit :=
  if (0 <? List.length (output_used o))%nat
  then rm_rasters_append tempraster_1 ;;
       r_mapcalc (eq o) ;;
       r_mapcalc (expression_1 o)
  else ret tt.

(** "Calculating change raster %s..." *)
Definition change_raster (o : options) (used_item : name * Q) : grass unit :=
  let '(item, value) := used_item in
  rm_rasters_append (tempraster_2 item) ;;
  r_mapcalc (expression_2 item value) ;;
  (* "omit areas smaller < threshold" *)
  r_reclass_area (tempraster_2 item) item greater (minsize o).

Definition main (o : options) (flag_f : bool) : grass unit :=
  check_input o ;;
  change_detection o flag_f ;;
  information_gain o ;;
  gate o ;;
  for_each (output_used o) (change_raster o).

Definition cleanup : grass unit :=
  w <- get ;;
  for_each (rm_rasters w)
    (fun rmrast =>
       found <- find_file rmrast ;;
       if found then g_remove_raster rmrast else ret tt).

End Change.
End Change.

(** ** v.incora.training_data *)

Module Training.
Section Training.
Context {P : Primitives}.

Definition red : name := Opt "red".
Definition green : name := Opt "green".
Definition blue : name := Opt "blue".
Definition imperviousness : name := Opt "imperviousness".
Definition landcover : name := Opt "landcover".
Definition elevation : name := Opt "elevation".
Definition NDVI_max : name := Opt "ndvi_max".
Definition NDVI_min : name := Opt "ndvi_min".
Definition NDVI_range : name := Opt "ndvi_range".
Definition NDWI : name := Opt "ndwi".
Definition coastline : name := Opt "coastline".
Definition buildings : name := Opt "buildings".
Definition roads : name := Opt "roads".
Definition map_water : name := Opt "water".
Definition output : name := Opt "output".

(** class numbers for training data *)
Definition forest_class : Q := 10.
Definition low_veg_class : Q := 20.
Definition water_class : Q := 30.
Definition builtup_class : Q := 40.
Definition baresoil_class : Q := 50.
Definition agr_class : Q := 60.
Definition builtup2_class : Q := 70.

(** class numbers in landcover raster map *)
Definition lc_forest_class : list Z := [82; 83]%Z.
Definition lc_low_veg_class : list Z := [102]%Z.
Definition lc_agr_class : list Z := [73; 75]%Z.

Definition forest_tr_tmp : name := Tmp "forest_tr_tmp".
Definition forest_tr : name := Tmp "forest_tr".
Definition low_veg_tr_tmp : name := Tmp "low_veg_tr_tmp".
Definition low_veg_tr : name := Tmp "low_veg_tr".
Definition roads_buf10 : name := Tmp "roads_buf10_tmp".
Definition bright_rast : name := Tmp "brightness".
Definition water_tr : name := Tmp "water_tr".
Definition buildings_buf100 : name := Tmp "buildings_buf100_tmp".
Definition roads_buf100 : name := Tmp "roads_buf100_tmp".
Definition map_water_buff : name := Tmp "water_buf_tmp".
Definition builtup_tr : name := Tmp "builtup_tr".
Definition builtup2_tr : name := Tmp "builtup2_tr".
Definition buildings_buf50 : name := Tmp "buildings_buf50_tmp".
Definition imp_buf : name := Tmp "imp_buf_tmp".
Definition baresoil_tr_tmp : name := Tmp "baresoil_tr_tmp".
Definition baresoil_tr : name := Tmp "baresoil_tr".
Definition agr_tr_tmp : name := Tmp "agr_tr_tmp".
Definition agr_tr : name := Tmp "agr_tr".
Definition tr_sum : name := Tmp "tr_sum".
Definition tr_mask : name := Tmp "tr_mask".
Definition mask_tmp : name := Tmp "mask".
Definition region_tmp : name := Tmp "region_tmp".

(** [tr_maps], as it stands once every class has been selected. *)
Definition tr_maps : list name :=
  [forest_tr; low_veg_tr; water_tr; builtup_tr; builtup2_tr; baresoil_tr;
   agr_tr].

(** A number printed with [%f]: six decimals, to the nearest, a tie going to
    the even last digit. *)
Definition percent_f (x : Q) : Q :=
  let scaled := (x * 1000000)%Q in
  let low := Qfloor scaled in
  let last :=
    if Qeq_bool (scaled - inject_Z low) (1 # 2)
    then (if Z.even low then low else low + 1)%Z
    else Qfloor (scaled + (1 # 2)) in
  (inject_Z last / 1000000)%Q.

(** [get_percentile]: the third [:]-separated field of the first line that
    r.quantile prints, as a float. *)
Definition get_percentile (raster : name) (percentile : Q) : grass Q :=
  lines <- r_quantile raster percentile ;;
  match lines with
  | [] => fatal "IndexError: list index out of range"
  | first :: _ =>
      match nth_error (split_on ":" first) 2 with
      | None => fatal "IndexError: list index out of range"
      | Some field =>
          match float field with
          | Some x => ret x
          | None => fatal "ValueError: could not convert string to float"
          end
      end
  end.

(** "check if mask is activated and save the mask", "save actuall region" *)
Definition save_mask_and_region : grass unit :=
  found <- find_file MASK ;;
  (if found
   then warning MASK ;;
        modify (with_oldmask (Some mask_tmp)) ;;
        g_rename_raster MASK mask_tmp
   else ret tt) ;;
  modify (with_oldregion (Some region_tmp)) ;;
  g_region_save region_tmp.

Definition check_sample_category : grass unit :=
  found <- find_program "r.sample.category" ;;
  if negb found
  then fatal "The 'r.sample.category' module was not found, install it first:"
  else ret tt.

(** "Selecting forest pixels..." *)
Definition select_forest : grass unit :=
  r_mask landcover (only lc_forest_class) ;;
  forest_NDVImax_p5 <- get_percentile NDVI_max 5 ;;
  rm_rasters_append forest_tr_tmp ;;
  r_mapcalc (forest_tr_tmp :==
    If (NDVI_max > Num (percent_f forest_NDVImax_p5)) (Num forest_class) Null) ;;
  rm_rasters_append forest_tr ;;
  r_reclass_area forest_tr_tmp forest_tr greater 1 ;;
  r_mask_remove.

(** "Selecting low vegetation pixels..." *)
Definition select_low_veg : grass unit :=
  r_mask landcover (only lc_low_veg_class) ;;
  low_veg_NDVImin_q1 <- get_percentile NDVI_min 25 ;;
  rm_rasters_append low_veg_tr_tmp ;;
  r_mapcalc (low_veg_tr_tmp :==
    If (NDVI_min >= Num (percent_f low_veg_NDVImin_q1)) (Num low_veg_class)
       Null) ;;
  rm_rasters_append low_veg_tr ;;
  r_reclass_area low_veg_tr_tmp low_veg_tr greater 1 ;;
  r_mask_remove.

Definition reflectance_thresh : Q := 500.

(** "Selecting water pixels..." *)
Definition select_water : grass unit :=
  rm_rasters_append roads_buf10 ;;
  r_buffer roads roads_buf10 10 ;;
  r_mask map_water all_cats ;;
  rm_rasters_append bright_rast ;;
  r_mapcalc (bright_rast :==
    If ((red > Num reflectance_thresh) && (green > Num reflectance_thresh)
        && (blue > Num reflectance_thresh))
       (Num 1) Null) ;;
  r_mapcalc (water_tr :==
    If ((NDWI > Num 130) && IsNull roads_buf10 && IsNull bright_rast)
       (Num water_class) Null) ;;
  rm_rasters_append water_tr ;;
  r_mask_remove.

(** The built-up rule; only the ceiling on [NDVI_max] and the leading test
    differ between the two classes. *)
Definition eq_builtup : assignment :=
  builtup_tr :==
    If ((NDVI_max <= Num 200) && IsNull map_water_buff
        && (landcover != Num 73) && (landcover != Num 75)
        && ((buildings_buf100 > Num 0) ||| (roads_buf10 > Num 0))
        &&& (elevation < Num 1000))
       (Num builtup_class) Null.

(** "classify mixed urban pixels" *)
Definition eq2_builtup2 : assignment :=
  builtup2_tr :==
    If (IsNull builtup_tr
        && (NDVI_max <= Num 220) && IsNull map_water_buff
        && (landcover != Num 73) && (landcover != Num 75)
        && ((buildings_buf100 > Num 0) ||| (roads_buf10 > Num 0))
        &&& (elevation < Num 1000))
       (Num builtup2_class) Null.

(** The rule the two classes share, with its ceiling on [NDVI_max] and its
    class code left open. *)
Definition builtup_rule (ceiling class : Q) : expr :=
  If ((NDVI_max <= Num ceiling) && IsNull map_water_buff
      && (landcover != Num 73) && (landcover != Num 75)
      && ((buildings_buf100 > Num 0) ||| (roads_buf10 > Num 0))
      &&& (elevation < Num 1000))
     (Num class) Null.

(** "Selecting builtup pixels..." *)
Definition select_builtup : grass unit :=
  rm_rasters_append buildings_buf100 ;;
  r_buffer buildings buildings_buf100 100 ;;
  rm_rasters_append roads_buf100 ;;
  r_buffer roads roads_buf100 100 ;;
  rm_rasters_append map_water_buff ;;
  r_buffer map_water map_water_buff 50 ;;
  rm_rasters_append builtup_tr ;;
  r_mask coastline all_cats ;;
  r_mapcalc eq_builtup ;;
  r_mapcalc eq2_builtup2 ;;
  r_mask_remove.

(** "Selecting bare soil pixels..." *)
Definition select_baresoil : grass unit :=
  r_mask coastline all_cats ;;
  rm_rasters_append buildings_buf50 ;;
  r_buffer buildings buildings_buf50 50 ;;
  rm_rasters_append imp_buf ;;
  g_region_res 100 ;;
  r_buffer imperviousness imp_buf 100 ;;
  w <- get ;;
  match oldregion w with
  | Some saved => g_region_restore saved
  | None => fatal "g.region: no region given"
  end ;;
  rm_rasters_append baresoil_tr_tmp ;;
  r_mapcalc (baresoil_tr_tmp :==
    If (IsNull buildings_buf50 && IsNull roads_buf10 && IsNull imp_buf
        && (NDVI_range <= Num 50) && (NDVI_max <= Num 200)
        && IsNull map_water)
       (Num baresoil_class) Null) ;;
  rm_rasters_append baresoil_tr ;;
  r_reclass_area baresoil_tr_tmp baresoil_tr greater (5 # 10) ;;
  r_mask_remove.

(** "Selecting agriculture pixels..." *)
Definition select_agriculture : grass unit :=
  r_mask landcover (only lc_agr_class) ;;
  agr_NDVIrange_q1 <- get_percentile NDVI_range 25 ;;
  rm_rasters_append agr_tr_tmp ;;
  r_mapcalc (agr_tr_tmp :==
    If ((NDVI_range >= Num (percent_f agr_NDVIrange_q1))
        && IsNull buildings_buf50 && IsNull roads_buf10)
       (Num agr_class) Null) ;;
  rm_rasters_append agr_tr ;;
  r_reclass_area agr_tr_tmp agr_tr greater 2 ;;
  r_mask_remove.

(** [if( isnull(rast), 0, 1 )] *)
Definition claims (rast : name) : expr := If (IsNull rast) (Num 0) (Num 1).

(** "sum all training maps" *)
Definition sum_of_claims (maps : list name) : expr :=
  match maps with
  | [] => Null
  | rast :: rest =>
      fold_left (fun sum rast' => (sum + claims rast')%mc) rest (claims rast)
  end.

(** "Merging training data pixels..." *)
Definition merge (npoints : Z) : grass unit :=
  r_mapcalc (tr_sum :== sum_of_claims tr_maps) ;;
  rm_rasters_append tr_sum ;;
  (* "create mask where the pixel belong only to one class" *)
  r_mapcalc (tr_mask :== If (tr_sum == Num 1) (Num 1) Null) ;;
  rm_rasters_append tr_mask ;;
  r_mask tr_mask all_cats ;;
  (* "testif there are pixels inside the training classes" *)
  for_each tr_maps
    (fun rast =>
       n <- r_univar rast ;;
       if (n <? npoints)%Z then warning rast else ret tt) ;;
  r_patch tr_maps output ;;
  r_mask_remove ;;
  modify (fun w => with_rm_rasters (rm_rasters w ++ tr_maps) w).

(** The sampled points and their attribute table. *)
Definition sample_and_label : grass unit :=
  r_sample_category output output ;;
  v_db "v.db.renamecolumn" output ;;
  v_db "v.db.addcolumn" output ;;
  for_each [forest_class; low_veg_class; water_class; builtup_class;
            baresoil_class; agr_class; builtup2_class]
    (fun _ => v_db "v.db.update" output).

Definition main (npoints : Z) : grass unit :=
  save_mask_and_region ;;
  check_sample_category ;;
  select_forest ;;
  select_low_veg ;;
  select_water ;;
  select_builtup ;;
  select_baresoil ;;
  select_agriculture ;;
  merge npoints ;;
  sample_and_label.

Definition cleanup : grass unit :=
  w <- get ;;
  match oldmask w with
  | Some saved => r_mask saved all_cats ;; rm_rasters_append saved
  | None => ret tt
  end ;;
  match oldregion w with
  | Some saved => g_region_restore saved ;; rm_rasters_append saved
  | None => ret tt
  end ;;
  w <- get ;;
  for_each (rm_rasters w)
    (fun rmrast =>
       found <- find_file rmrast ;;
       if found then g_remove_raster rmrast else ret tt) ;;
  for_each (rm_vectors w)
    (fun rmvect =>
       if vectors w rmvect then g_remove_vector rmvect else ret tt) ;;
  for_each (rm_regions w)
    (fun rmr =>
       match regions w rmr with
       | Some _ => g_remove_region rmr
       | None => ret tt
       end).

End Training.
End Training.

(** ** Notions used in the statements *)

Module Notions.

(** The first cell that is not null. *)
Fixpoint first_value (cs : list cell) : cell :=
  match cs with
  | [] => None
  | Some v :: _ => Some v
  | None :: rest => first_value rest
  end.

(** The maps that hold a value at a cell. *)
Definition claimants (rd : name -> cell) (maps : list name) : list name :=
  filter (fun m => match rd m with Some _ => true | None => false end) maps.

(** A condition that is false or null. *)
Definition falsy (c : cell) : Prop := c = Some 0%Q \/ c = None.



End Notions.
Export Notions.

(** ** Sample sessions *)

Module Samples.

Definition pixel_eqb (p q : pixel) : bool :=
  Z.eqb (fst p) (fst q) && Z.eqb (snd p) (snd q).

(** A raster with the given cells, null elsewhere. *)
Fixpoint cells (l : list (pixel * Q)) : raster :=
  fun p => match l with
           | [] => None
           | (q, v) :: rest => if pixel_eqb q p then Some v else cells rest p
           end.

(** A mapset with the given maps. *)
Fixpoint mapset (l : list (name * raster)) : name -> option raster :=
  fun n => match l with
           | [] => None
           | (m, r) :: rest => if name_eqb m n then Some r else mapset rest n
           end.

(** A 10 m region of 100 by 100 cells. *)
Definition ten_metres : region :=
  {| north := 1000; south := 0; east := 1000; west := 0;
     nsres := 10; ewres := 10 |}.

(** The world a script starts in: its globals hold their initial values and
    nothing has run yet. *)
Definition start (maps : list (name * raster)) : world :=
  {| rasters := mapset maps;
     vectors := fun _ => false;
     regions := fun _ => None;
     current := ten_metres;
     overwrite := false;
     installed := fun _ => true;
     log := [];
     rm_rasters := []; rm_vectors := []; rm_regions := [];
     oldregion := None; oldmask := None |}.

(** A mixed built-up cell high up in the mountains. *)
Definition alpine_mixed : world :=
  start [ (Postproc.raster_7classes, cells [((0, 0)%Z, 70%Q)]);
          (Postproc.dem, cells [((0, 0)%Z, 1200%Q)]) ].

(** A water cell and a forest cell, high up and low down. *)
Definition alpine_lake : world :=
  start [ (Postproc.raster_7classes,
           cells [((0, 0)%Z, 30%Q); ((0, 1)%Z, 30%Q); ((1, 0)%Z, 10%Q)]);
          (Postproc.dem,
           cells [((0, 0)%Z, 1200%Q); ((0, 1)%Z, 400%Q); ((1, 0)%Z, 1200%Q)]) ].

(** A built-up cell on the water layer, away from roads. *)
Definition builtup_on_water : world :=
  start [ (Postproc.agr_corrected, cells [((0, 0)%Z, 40%Q); ((0, 1)%Z, 40%Q)]);
          (Postproc.water, cells [((0, 0)%Z, 1%Q)]);
          (Postproc.roads, cells [((5, 5)%Z, 1%Q)]) ].

(** Decimal numerals, as [%f] prints them. *)
Definition digit (c : ascii) : option Z :=
  let n := nat_of_ascii c in
  if (48 <=? n)%nat && (n <=? 57)%nat then Some (Z.of_nat (n - 48)) else None.

Fixpoint digits (s : string) (acc : Z) (scale : positive) (frac : bool)
  : option Q :=
  match s with
  | EmptyString => Some (acc # scale)
  | String c rest =>
      if Ascii.eqb c "."
      then if frac then None else digits rest acc scale true
      else match digit c with
           | Some d => digits rest (acc * 10 + d)
                         (if frac then scale * 10 else scale) frac
           | None => None
           end
  end.

Definition decimal (s : string) : option Q :=
  match s with
  | EmptyString => None
  | String c rest =>
      if Ascii.eqb c "-" then option_map Qopp (digits rest 0 1 false)
      else digits s 0 1 false
  end.

(** Stand-ins for the primitives, small enough to run:
    the buffer marks the source cells only, every clump counts as large,
    the quantile is always 0.42, the fill leaves gaps as they are, a cell
    has changed where the two maps differ, and the information gain is low
    on row 0. *)
Definition simple : Primitives :=
  {| buffer := fun _ r _ p =>
       match r p with
       | Some v => if nonzero v then Some 1%Q else None
       | None => None
       end;
     reclass_area := fun _ r mode _ =>
       match mode with greater => r | lesser => fun _ => None end;
     quantile := fun _ _ _ => ["0:5.000000:0.420000"];
     grow_distance := fun _ r => r;
     change_stats := fun _ a b _ p =>
       match a p, b p with
       | Some x, Some y => Some (if Qeq_bool x y then 0%Q else 1%Q)
       | _, _ => None
       end;
     change_info := fun _ _ _ _ _ p =>
       Some (if Z.eqb (fst p) 0 then (3 # 10)%Q else 1%Q);
     univar_n := fun _ r =>
       Z.of_nat (List.length
         (filter (fun p => match r p with Some _ => true | None => false end)
                 (list_prod [0; 1; 2]%Z [0; 1; 2]%Z)));
     float := decimal |}.

(** Options of r.incora.change: forest and water outputs are asked for. *)
Definition change_options (input : string) : Change.options :=
  {| Change.input := input;
     Change.output_cd := "cd";
     Change.output_water := "water_change";
     Change.output_bu := "";
     Change.output_forest := "forest_change";
     Change.output_lowveg := "";
     Change.output_bare := "";
     Change.output_agr := "";
     Change.minsize := 1%Q;
     Change.mode_winsize := 3%Z;
     Change.gain_winsize := 4%Z;
     Change.gain_thresh := (5 # 10)%Q |}.

(** Forest (10) turns into water (30) on two cells, one of low gain. *)
Definition two_dates : world :=
  start [ (Item "input" 0, cells [((0, 0)%Z, 10%Q); ((1, 0)%Z, 10%Q);
                                   ((1, 1)%Z, 10%Q)]);
          (Item "input" 1, cells [((0, 0)%Z, 30%Q); ((1, 0)%Z, 30%Q);
                                   ((1, 1)%Z, 10%Q)]) ].

(** A cell in the mask of changes that is forest at both dates. *)
Definition changed_but_same : world :=
  start [ (Change.tempraster_1, cells [((0, 0)%Z, 1%Q); ((0, 1)%Z, 1%Q)]);
          (Item "input" 0, cells [((0, 0)%Z, 10%Q)]);
          (Item "input" 1, cells [((0, 0)%Z, 10%Q); ((0, 1)%Z, 10%Q)]) ].

(** A raster with one value on the nine cells of rows and columns 0 to 2. *)
Definition grid (v : Q) : raster :=
  fun p => if (0 <=? fst p)%Z && (fst p <=? 2)%Z
              && (0 <=? snd p)%Z && (snd p <=? 2)%Z
           then Some v else None.

(** Inputs of v.incora.training_data, but for the imperviousness layer:
    forest, low vegetation and a field on row 0; a house, a road and a pond
    on row 1. *)
Definition training_inputs : list (name * raster) :=
  [ (Training.landcover,
     cells [((0, 0)%Z, 82%Q); ((0, 1)%Z, 102%Q); ((0, 2)%Z, 73%Q);
            ((1, 0)%Z, 62%Q); ((1, 1)%Z, 62%Q); ((1, 2)%Z, 162%Q);
            ((2, 0)%Z, 62%Q)]);
    (Training.NDVI_max,
     cells [((0, 0)%Z, 240%Q); ((0, 1)%Z, 210%Q); ((0, 2)%Z, 230%Q);
            ((1, 0)%Z, 150%Q); ((1, 1)%Z, 210%Q); ((1, 2)%Z, 50%Q);
            ((2, 0)%Z, 180%Q)]);
    (Training.NDVI_min,
     cells [((0, 0)%Z, 150%Q); ((0, 1)%Z, 120%Q); ((0, 2)%Z, 40%Q);
            ((1, 0)%Z, 60%Q); ((1, 1)%Z, 90%Q); ((1, 2)%Z, 10%Q);
            ((2, 0)%Z, 160%Q)]);
    (Training.NDVI_range,
     cells [((0, 0)%Z, 90%Q); ((0, 1)%Z, 90%Q); ((0, 2)%Z, 190%Q);
            ((1, 0)%Z, 90%Q); ((1, 1)%Z, 120%Q); ((1, 2)%Z, 40%Q);
            ((2, 0)%Z, 20%Q)]);
    (Training.NDWI, cells [((1, 2)%Z, 200%Q); ((0, 0)%Z, 60%Q)]);
    (Training.elevation, grid 200);
    (Training.coastline, grid 1);
    (Training.buildings, cells [((1, 0)%Z, 1%Q)]);
    (Training.roads, cells [((1, 1)%Z, 1%Q)]);
    (Training.map_water, cells [((1, 2)%Z, 1%Q)]);
    (Training.red, grid 300);
    (Training.green, grid 300);
    (Training.blue, grid 300) ].

(** A mapset with every input. *)
Definition countryside : world :=
  start ((Training.imperviousness, cells [((1, 0)%Z, 80%Q)])
         :: training_inputs).

(** A mask set by the user: only the cell (0,0) is valid. *)
Definition user_mask : raster := cells [((0, 0)%Z, 1%Q)].

(** A mapset where the user has set a MASK and the map given as
    imperviousness does not exist. *)
Definition masked_without_imperviousness : world :=
  start ((MASK, user_mask) :: training_inputs).

(** The session when the water class is about to be selected. *)
Definition before_water : world :=
  final ((Training.save_mask_and_region ;;
          Training.check_sample_category ;;
          @Training.select_forest simple ;;
          @Training.select_low_veg simple) countryside).

(** The session when the built-up classes are about to be selected. *)
Definition before_builtup : world :=
  final (@Training.select_water simple before_water).

(** The session when the candidates are about to be merged. *)
Definition before_merge : world :=
  final ((@Training.select_builtup simple ;;
          @Training.select_baresoil simple ;;
          @Training.select_agriculture simple) before_builtup).

End Samples.

(** * Contracts

    What the properties of whole scripts are stated with. *)

Module Contracts.

(** No cell of [r] holds [code]. *)
Definition holds_no (code : Q) (r : raster) : Prop :=
  forall p v, r p = Some v -> ~ (v == code)%Q.

(** Every value of [r] is a whole number. *)
Definition whole (r : raster) : Prop :=
  forall p v, r p = Some v -> exists z : Z, (v == inject_Z z)%Q.

(** [c] run from a world where [Pre] holds ends in a world where [Post]
    holds when it returns, and where [Exit] holds when it stops on an
    error. *)
Definition hoare {A : Type} (Pre : world -> Prop) (c : grass A)
  (Post : A -> world -> Prop) (Exit : world -> Prop) : Prop :=
  forall w, Pre w ->
    match c w with
    | Done a w' => Post a w'
    | Fatal _ w' => Exit w'
    end.

(** Whatever the outcome, [c] changes no raster map outside [maps] and
    leaves [rm_rasters] alone. *)
Definition touches {A : Type} (maps : list name) (c : grass A) : Prop :=
  forall w,
    (forall n, ~ In n maps -> rasters (final (c w)) n = rasters w n) /\
    rm_rasters (final (c w)) = rm_rasters w.

(** Every raster map is as in [w0], or listed for removal, or an output;
    the maps in [known] are listed for removal, and only temporaries are. *)
Definition tidy (w0 : world) (temps outputs known : list name) (w : world)
  : Prop :=
  (forall n, rasters w n = rasters w0 n \/ In n (rm_rasters w) \/ In n outputs)
  /\ incl known (rm_rasters w)
  /\ incl (rm_rasters w) temps.

(** Membership in a list of names, decided. *)
Definition listed (n : name) (l : list name) : bool :=
  existsb (fun m => name_eqb m n) l.

(** The body of the loop of [cleanup] in r.incora.postproc and
    r.incora.change. *)
Definition remove_if_found (rmrast : name) : grass unit :=
  found <- find_file rmrast ;;
  if found then g_remove_raster rmrast else ret tt.

(** The names r.incora.postproc appends to [rm_rasters]. *)
Definition postproc_temporaries : list name :=
  [Postproc.water_elevation; Postproc.postproc_raster2; Postproc.grow_raster;
   Postproc.rounded; Postproc.coast_corrected; Postproc.elevation_corrected;
   Postproc.agr_only; Postproc.small_areas; Postproc.agr_corrected].

(** The names r.incora.change can append to [rm_rasters]. *)
Definition change_temporaries (o : Change.options) : list name :=
  [Tmp "cd_rast"; Change.cd_temprast; Change.gainmap; Change.tempraster_1]
  ++ map (fun used_item => Change.tempraster_2 (fst used_item))
         (Change.output_used o).

(** The maps the user asked r.incora.change for. *)
Definition change_outputs (o : Change.options) : list name :=
  (if given (Change.output_cd o) then [Opt "output_cd"] else [])
  ++ map fst (Change.output_used o).

End Contracts.
Export Contracts.

(** * More sample sessions *)

Module Scenes.
Import Samples.

(** Inputs of r.incora.postproc: a lake high up, built-up on the sea, on a
    summit and on a pond, fields low and high, a mixed cell and forest. *)
Definition valley : world :=
  start [ (Postproc.raster_7classes,
           cells [((0, 0)%Z, 30%Q); ((0, 1)%Z, 40%Q); ((0, 2)%Z, 60%Q);
                  ((1, 0)%Z, 40%Q); ((1, 1)%Z, 60%Q);
                  ((2, 0)%Z, 40%Q); ((2, 1)%Z, 70%Q); ((2, 2)%Z, 10%Q)]);
          (Postproc.dem,
           cells [((0, 0)%Z, 1200%Q); ((0, 1)%Z, 10%Q); ((0, 2)%Z, 100%Q);
                  ((1, 0)%Z, 1600%Q); ((1, 1)%Z, 900%Q);
                  ((2, 0)%Z, 300%Q); ((2, 1)%Z, 300%Q); ((2, 2)%Z, 300%Q)]);
          (Postproc.coastline,
           cells [((0, 0)%Z, 1%Q); ((0, 2)%Z, 1%Q); ((1, 0)%Z, 1%Q);
                  ((1, 1)%Z, 1%Q); ((2, 0)%Z, 1%Q); ((2, 1)%Z, 1%Q);
                  ((2, 2)%Z, 1%Q)]);
          (Postproc.water, cells [((2, 0)%Z, 1%Q)]);
          (Postproc.roads, cells [((2, 2)%Z, 1%Q)]) ].

(** The session after each pass of r.incora.postproc on [valley]. *)
Definition rebranded : world := final (Postproc.rebrand_high_water valley).
Definition unmixed : world := final (Postproc.remove_mixed rebranded).
Definition filled : world := final (@Postproc.fill_gaps simple unmixed).
Definition coast_done : world := final (Postproc.correct_coast filled).
Definition elevation_done : world :=
  final (Postproc.correct_elevation coast_done).


(** Options of r.incora.change: the total change map is asked for, and no
    class output. *)
Definition total_only : Change.options :=
  {| Change.input := "t1,t2";
     Change.output_cd := "cd";
     Change.output_water := "";
     Change.output_bu := "";
     Change.output_forest := "";
     Change.output_lowveg := "";
     Change.output_bare := "";
     Change.output_agr := "";
     Change.minsize := 1%Q;
     Change.mode_winsize := 3%Z;
     Change.gain_winsize := 4%Z;
     Change.gain_thresh := (5 # 10)%Q |}.


End Scenes.

(** * Properties *)

Unset Implicit Arguments.

Local Open Scope Q_scope.

(** ** Cells and comparisons *)

Lemma nonzero_truth (b : bool) : nonzero (if b then 1 else 0) = b.
Proof. destruct b; reflexivity. Qed.

Lemma Qgtb_true (x y : Q) : Qgtb x y = true <-> y < x.
Proof.
  unfold Qgtb. rewrite negb_true_iff, <- not_true_iff_false, Qle_bool_iff.
  split; [apply Qnot_le_lt | apply Qlt_not_le].
Qed.


Lemma Qeq_bool_false (x y : Q) : Qeq_bool x y = false <-> ~ x == y.
Proof.
  rewrite <- not_true_iff_false, Qeq_bool_iff. tauto.
Qed.

(** ** Running modules *)

Lemma r_mapcalc_done (a : assignment) (w : world) :
  forallb (exists_raster w) (maps_of (body a)) = true ->
  exists w',
    r_mapcalc a w = Done tt w' /\
    rasters w' = upd (target a) (Some (evaluate (rasters w) (body a))) (rasters w).
Proof.
  intros Hmaps. unfold r_mapcalc, bind, call, modify, get. cbn.
  unfold exists_raster in *. cbn. rewrite Hmaps. cbn.
  eexists. split; reflexivity.
Qed.

Lemma upd_same {A : Type} (n : name) (v : A) (f : name -> A) :
  name_eqb n n = true -> upd n v f n = v.
Proof. intros H. unfold upd. rewrite H. reflexivity. Qed.

Lemma bind_done {A B : Type} (c : grass A) (k : A -> grass B) (w w' : world) (b : B) :
  bind c k w = Done b w' ->
  exists a w1, c w = Done a w1 /\ k a w1 = Done b w'.
Proof.
  unfold bind. destruct (c w) as [a w1|msg w1]; [|discriminate].
  intros H. now exists a, w1.
Qed.

Lemma for_each_invariant {A : Type} (I : world -> Prop) (f : A -> grass unit) (l : list A) :
  (forall x w w', In x l -> I w -> f x w = Done tt w' -> I w') ->
  forall w w', I w -> for_each l f w = Done tt w' -> I w'.
Proof.
  induction l as [|x rest IH]; intros Hstep w w' HI Hrun.
  - cbn in Hrun. injection Hrun as <-. exact HI.
  - cbn in Hrun. apply bind_done in Hrun as ([] & w1 & Hx & Hrest).
    apply (IH (fun y u u' Hy => Hstep y u u' (or_intror Hy)) w1 w');
      [|exact Hrest].
    apply (Hstep x w w1); [now left | exact HI | exact Hx].
Qed.


Lemma name_eqb_eq (a b : name) : name_eqb a b = true -> a = b.
Proof.
  revert b. induction a as [|k|k i|s|n IH t]; intros [|k'|k' i'|s'|n' t']; cbn;
    try discriminate; try reflexivity.
  - intros H. apply String.eqb_eq in H. now subst.
  - intros H. apply andb_true_iff in H as [H1 H2].
    apply String.eqb_eq in H1. apply Nat.eqb_eq in H2. now subst.
  - intros H. apply String.eqb_eq in H. now subst.
  - intros H. apply andb_true_iff in H as [H1 H2].
    apply IH in H1. apply String.eqb_eq in H2. now subst.
Qed.

Lemma name_eqb_refl (a : name) : name_eqb a a = true.
Proof.
  induction a as [|k|k i|s|n IH t]; cbn; rewrite ?String.eqb_refl, ?Nat.eqb_refl, ?IH;
    reflexivity.
Qed.

(** Writing to another map than [n] and the MASK does not change what is read from [n]. *)
Lemma seen_write_other (store : name -> option raster) (m n : name) (v : option raster) (p : pixel) :
  name_eqb m n = false -> name_eqb m MASK = false ->
  seen (upd m v store) n p = seen store n p.
Proof.
  intros Hn Hm. unfold seen, upd. now rewrite Hn, Hm.
Qed.

Lemma succeeded_final (o : outcome unit) :
  succeeded o = true -> o = Done tt (final o).
Proof. destruct o as [[] w|msg w]; [reflexivity | discriminate]. Qed.

(** ** r.incora.postproc *)

Section PostprocProperties.
Import Postproc.

(** The first pass, cell by cell. *)
Lemma water_elevation_cell (rd : name -> cell) :
  eval rd (body water_elevation_expression) =
  match rd dem, rd raster_7classes with
  | Some h, Some c => if Qgtb h 1000 && Qeq_bool c 30 then Some 70 else Some c
  | _, _ => None
  end.
Proof.
  cbn. destruct (rd dem) as [h|], (rd raster_7classes) as [c|]; cbn;
    try reflexivity.
  rewrite !nonzero_truth. destruct (Qgtb h 1000 && Qeq_bool c 30); reflexivity.
Qed.

(** The last pass, cell by cell. *)
Lemma output_cell (rd : name -> cell) :
  eval rd (body output_expression) =
  match rd agr_corrected with
  | None => None
  | Some c =>
      if match rd water with Some _ => true | None => false end
         && match rd roads with Some _ => false | None => true end
         && Qeq_bool c 40
      then Some 30 else Some c
  end.
Proof.
  cbn. destruct (rd agr_corrected) as [c|], (rd water), (rd roads); cbn;
    try reflexivity; rewrite ?nonzero_truth; cbn;
    destruct (Qeq_bool c 40); reflexivity.
Qed.

(** C3, as amended.  The first pass reassigns every water cell (30) above
    1000 to the mixed class (70); every other cell with an elevation keeps
    its class; a cell without an elevation becomes null.  Cells are taken as
    the module reads them. *)
Theorem rebrand_high_water_cells (w : world) (cls elev : raster) :
  rasters w raster_7classes = Some cls ->
  rasters w dem = Some elev ->
  exists (w' : world) (out : raster),
    rebrand_high_water w = Done tt w' /\
    rasters w' water_elevation = Some out /\
    forall p : pixel,
      let c := seen (rasters w) raster_7classes p in
      let h := seen (rasters w) dem p in
      (forall hv cv, h = Some hv -> c = Some cv ->
                     1000 < hv -> cv == 30 -> out p = Some 70) /\
      (forall hv, h = Some hv ->
                  ~ (1000 < hv /\ exists cv, c = Some cv /\ cv == 30) ->
                  out p = c) /\
      (h = None -> out p = None).
Proof.
  intros Hcls Hdem.
  destruct (@r_mapcalc_done water_elevation_expression
              (with_rm_rasters (rm_rasters w ++ [water_elevation]) w))
    as (w' & Hrun & Hmaps).
  { cbn. unfold exists_raster. cbn. now rewrite Hcls, Hdem. }
  exists w', (evaluate (rasters w) (body water_elevation_expression)).
  split; [exact Hrun|]. split.
  { rewrite Hmaps. reflexivity. }
  intros p c h. unfold evaluate. rewrite water_elevation_cell.
  fold c h. repeat split.
  - intros hv cv -> -> Hhigh Hwater.
    apply Qgtb_true in Hhigh. apply Qeq_bool_iff in Hwater.
    now rewrite Hhigh, Hwater.
  - intros hv -> Hnot. destruct c as [cv|]; [|reflexivity].
    destruct (Qgtb hv 1000) eqn:Hhigh; [|reflexivity].
    destruct (Qeq_bool cv 30) eqn:Hwater; [|reflexivity].
    exfalso. apply Hnot. split; [now apply Qgtb_true|].
    exists cv. split; [reflexivity | now apply Qeq_bool_iff].
  - now intros ->.
Qed.

Lemma rebrand_high_water_cells_witness :
  exists (w' : world) (out : raster),
    rebrand_high_water Samples.alpine_lake = Done tt w' /\
    rasters w' water_elevation = Some out /\
    forall p : pixel,
      let c := seen (rasters Samples.alpine_lake) raster_7classes p in
      let h := seen (rasters Samples.alpine_lake) dem p in
      (forall hv cv, h = Some hv -> c = Some cv ->
                     1000 < hv -> cv == 30 -> out p = Some 70) /\
      (forall hv, h = Some hv ->
                  ~ (1000 < hv /\ exists cv, c = Some cv /\ cv == 30) ->
                  out p = c) /\
      (h = None -> out p = None).
Proof.
  exact (@rebrand_high_water_cells Samples.alpine_lake _ _ eq_refl eq_refl).
Defined.

(** C3 as stated fails: a mixed built-up cell (70) at elevation 1200 is not
    made built-up (40), it stays 70. *)
Lemma mixed_high_up_stays_mixed :
  seen (rasters Samples.alpine_mixed) raster_7classes (0, 0)%Z = Some 70 /\
  seen (rasters Samples.alpine_mixed) dem (0, 0)%Z = Some 1200 /\
  exists (w' : world) (out : raster),
    rebrand_high_water Samples.alpine_mixed = Done tt w' /\
    rasters w' water_elevation = Some out /\
    out (0, 0)%Z = Some 70 /\
    out (0, 0)%Z <> Some 40.
Proof.
  split; [reflexivity|]. split; [reflexivity|].
  eexists. eexists. split; [reflexivity|]. split; [reflexivity|].
  split; [reflexivity | discriminate].
Qed.

(** C4, as amended.  The last pass reassigns every built-up cell (40) that
    lies on the water layer and off the roads layer to water (30); every
    other cell is left as the pass before had it. *)
Theorem remove_builtup_on_water_cells (w : world) (wat rd prev : raster) :
  rasters w water = Some wat ->
  rasters w roads = Some rd ->
  rasters w agr_corrected = Some prev ->
  exists (w' : world) (out : raster),
    remove_builtup_on_water w = Done tt w' /\
    rasters w' output = Some out /\
    forall p : pixel,
      let c := seen (rasters w) agr_corrected p in
      let on_water := seen (rasters w) water p <> None in
      let off_roads := seen (rasters w) roads p = None in
      (forall cv, c = Some cv -> on_water -> off_roads -> cv == 40 ->
                  out p = Some 30) /\
      (~ (on_water /\ off_roads /\ exists cv, c = Some cv /\ cv == 40) ->
       out p = c).
Proof.
  intros Hwat Hrd Hprev.
  destruct (@r_mapcalc_done output_expression w) as (w' & Hrun & Hmaps).
  { cbn. unfold exists_raster. now rewrite Hwat, Hrd, Hprev. }
  exists w', (evaluate (rasters w) (body output_expression)).
  split; [exact Hrun|]. split.
  { rewrite Hmaps. reflexivity. }
  intros p c on_water off_roads. unfold evaluate. rewrite output_cell.
  fold c. subst on_water off_roads. split.
  - intros cv -> Hw Hr Hb. rewrite Hr.
    destruct (seen (rasters w) water p); [|contradiction].
    apply Qeq_bool_iff in Hb. now rewrite Hb.
  - intros Hnot. destruct c as [cv|]; [|reflexivity].
    destruct (seen (rasters w) water p) eqn:Hw; [|reflexivity].
    destruct (seen (rasters w) roads p) eqn:Hr; [reflexivity|].
    destruct (Qeq_bool cv 40) eqn:Hb; [|reflexivity].
    exfalso. apply Hnot. split; [discriminate|]. split; [reflexivity|].
    exists cv. split; [reflexivity | now apply Qeq_bool_iff].
Qed.

Lemma remove_builtup_on_water_cells_witness :
  exists (w' : world) (out : raster),
    remove_builtup_on_water Samples.builtup_on_water = Done tt w' /\
    rasters w' output = Some out /\
    forall p : pixel,
      let c := seen (rasters Samples.builtup_on_water) agr_corrected p in
      let on_water := seen (rasters Samples.builtup_on_water) water p <> None in
      let off_roads := seen (rasters Samples.builtup_on_water) roads p = None in
      (forall cv, c = Some cv -> on_water -> off_roads -> cv == 40 ->
                  out p = Some 30) /\
      (~ (on_water /\ off_roads /\ exists cv, c = Some cv /\ cv == 40) ->
       out p = c).
Proof.
  exact (@remove_builtup_on_water_cells Samples.builtup_on_water _ _ _
           eq_refl eq_refl eq_refl).
Defined.

(** C4 as stated fails: a built-up cell on water and off the roads becomes
    water (30), not agriculture (60). *)
Lemma builtup_on_water_becomes_water :
  seen (rasters Samples.builtup_on_water) agr_corrected (0, 0)%Z = Some 40 /\
  seen (rasters Samples.builtup_on_water) water (0, 0)%Z <> None /\
  seen (rasters Samples.builtup_on_water) roads (0, 0)%Z = None /\
  exists (w' : world) (out : raster),
    remove_builtup_on_water Samples.builtup_on_water = Done tt w' /\
    rasters w' output = Some out /\
    out (0, 0)%Z = Some 30 /\
    out (0, 0)%Z <> Some 60.
Proof.
  split; [reflexivity|]. split; [discriminate|]. split; [reflexivity|].
  eexists. eexists. split; [reflexivity|]. split; [reflexivity|].
  split; [reflexivity | discriminate].
Qed.

End PostprocProperties.

(** ** r.incora.change *)

Section ChangeProperties.
Import Change.
Context {P : Primitives}.

Lemma r_mapcalc_writes (a : assignment) (w w' : world) :
  r_mapcalc a w = Done tt w' ->
  rasters w' = upd (target a) (Some (evaluate (rasters w) (body a))) (rasters w) /\
  current w' = current w.
Proof.
  unfold r_mapcalc, bind, call, modify, get, write_raster, fatal. cbn.
  destruct (forallb _ _); [|discriminate]. intros H. injection H as <-.
  split; reflexivity.
Qed.

Lemma r_reclass_area_writes (input output : name) (mode : area_mode) (value : Q) (w w' : world) :
  r_reclass_area input output mode value w = Done tt w' ->
  exists r, rasters w input = Some r /\
  rasters w' = upd output (Some (reclass_area (current w) (through_mask (rasters w MASK) r) mode value)) (rasters w).
Proof.
  unfold r_reclass_area, read_raster, need, bind, call, modify, get, write_raster, fatal, ret. cbn.
  destruct (rasters w input) as [r|]; [|discriminate]. cbn.
  intros H. injection H as <-. exists r. split; reflexivity.
Qed.

Lemma rm_rasters_append_rasters (n : name) (w : world) :
  exists w1, rm_rasters_append n w = Done tt w1 /\ rasters w1 = rasters w /\ current w1 = current w.
Proof. eexists. repeat split. Qed.




Lemma expression_2_cell (item : name) (value : Q) (rd : name -> cell) :
  eval rd (body (expression_2 item value)) =
  match rd tempraster_1, rd (Item "input" 0) with
  | Some m, Some a =>
      if Qeq_bool m 1 && Qeq_bool a value then Some 1
      else match rd (Item "input" 1) with
           | Some b => if Qeq_bool m 1 && Qeq_bool b value then Some 2 else None
           | None => None
           end
  | _, _ => None
  end.
Proof.
  cbn. destruct (rd tempraster_1) as [m|], (rd (Item "input" 0)) as [a|]; cbn;
    try reflexivity.
  rewrite !nonzero_truth.
  destruct (Qeq_bool m 1 && Qeq_bool a value); [reflexivity|].
  destruct (rd (Item "input" 1)) as [b|]; cbn; [|reflexivity].
  now rewrite !nonzero_truth.
Qed.

(** One round of the loop writes two maps: the class raster before and
    after the area filter. *)
Lemma change_raster_writes (o : options) (item : name) (value : Q) (w w' : world) :
  change_raster o (item, value) w = Done tt w' ->
  rasters w' =
    upd item
      (Some (reclass_area (current w)
               (through_mask (rasters w MASK)
                  (evaluate (rasters w) (body (expression_2 item value))))
               greater (minsize o)))
      (upd (tempraster_2 item)
         (Some (evaluate (rasters w) (body (expression_2 item value))))
         (rasters w)).
Proof.
  unfold change_raster. intros H.
  apply bind_done in H as ([] & w1 & H1 & H).
  apply bind_done in H as ([] & w2 & H2 & H3).
  injection H1 as <-.
  apply r_mapcalc_writes in H2 as [H2 H2c]. cbn in H2, H2c.
  apply r_reclass_area_writes in H3 as (r & Hr & H3).
  rewrite H2 in Hr, H3. rewrite H2c in H3.
  unfold upd at 1 in Hr. cbn in Hr.
  rewrite name_eqb_refl in Hr. injection Hr as <-.
  exact H3.
Qed.

Section Gate.
Variable o : options.
Variable p : pixel.

Hypothesis reclass_area_keeps_null :
  forall rg r mode value, r p = None -> reclass_area rg r mode value p = None.




End Gate.

Lemma name_eqb_TmpOf (n : name) (t : string) : name_eqb n (TmpOf n t) = false.
Proof.
  revert t. induction n as [|k|k i|s|n IH t']; intros t; cbn; try reflexivity.
  now rewrite IH.
Qed.



Lemma used_in (outputs : list (string * name)) (values : list Q) (item : name) (value : Q) :
  In (item, value) (used outputs values) -> In item (map snd outputs).
Proof.
  revert values. induction outputs as [|[s m] rest IH]; intros values Hin.
  - destruct Hin.
  - destruct values as [|v values']; [destruct Hin|]. cbn in Hin.
    destruct (given s).
    + destruct Hin as [Heq|Hin]; [injection Heq as <- _; now left|].
      right. exact (IH values' Hin).
    + right. exact (IH values' Hin).
Qed.








(** C6, as amended.  Before the area filter, the raster of a class holds 1
    at every cell of the mask of changes where the first map holds the class
    code; 2 where the first map holds another code and the second map holds
    the class code; and is null everywhere else.  So a changed cell with
    class A at the first date and another class B at the second records 1
    in the raster of A and 2 in the raster of B. *)
Theorem change_direction (o : options) (item : name) (value : Q) (w w' : world) :
  change_raster o (item, value) w = Done tt w' ->
  exists out : raster,
    rasters w' (tempraster_2 item) = Some out /\
    forall p : pixel,
      let changed := exists m, seen (rasters w) tempraster_1 p = Some m /\ m == 1 in
      let t1 := seen (rasters w) (Item "input" 0) p in
      let t2 := seen (rasters w) (Item "input" 1) p in
      (changed -> (exists a, t1 = Some a /\ a == value) -> out p = Some 1) /\
      (changed -> (exists a, t1 = Some a /\ ~ a == value) ->
       (exists b, t2 = Some b /\ b == value) -> out p = Some 2) /\
      (~ changed \/ t1 = None \/
       ((exists a, t1 = Some a /\ ~ a == value) /\
        ~ (exists b, t2 = Some b /\ b == value)) -> out p = None).
Proof.
  intros Hrun. apply change_raster_writes in Hrun.
  exists (evaluate (rasters w) (body (expression_2 item value))). split.
  { rewrite Hrun. unfold upd, tempraster_2.
    now rewrite name_eqb_TmpOf, name_eqb_refl. }
  intros p changed t1 t2. unfold evaluate. rewrite expression_2_cell.
  fold t1 t2. subst changed. repeat split.
  - intros (m & -> & Hm) (a & -> & Ha).
    apply Qeq_bool_iff in Hm, Ha. now rewrite Hm, Ha.
  - intros (m & -> & Hm) (a & -> & Ha) (b & -> & Hb).
    apply Qeq_bool_iff in Hm, Hb. apply Qeq_bool_false in Ha.
    now rewrite Hm, Ha, Hb.
  - intros Helse.
    destruct (seen (rasters w) tempraster_1 p) as [m|] eqn:Hmask; [|reflexivity].
    destruct t1 as [a|]; [|reflexivity].
    destruct (Qeq_bool m 1) eqn:Hm.
    + destruct Helse as [Hno|[Hnone|[(a' & Ha' & Hne) Hnot]]].
      * exfalso. apply Hno. exists m. split; [reflexivity|now apply Qeq_bool_iff].
      * discriminate.
      * injection Ha' as <-. apply Qeq_bool_false in Hne. rewrite Hne. cbn.
        destruct t2 as [b|]; [|reflexivity].
        destruct (Qeq_bool b value) eqn:Hb; [|reflexivity].
        exfalso. apply Hnot. exists b. split; [reflexivity|now apply Qeq_bool_iff].
    + cbn. now destruct t2.
Qed.

(** C7.  When the input option does not split into exactly two names,
    [main] stops with a fatal error in the world it started in: no module
    has run and no map, region or global has changed; the exit handler then
    has nothing to remove. *)
Theorem wrong_input_count_is_fatal (o : options) (flag_f : bool) (w : world) :
  List.length (split_on "," (input o)) <> 2%nat ->
  main o flag_f w = Fatal "Input must consist of two raster maps" w /\
  (rm_rasters w = [] ->
   script (main o flag_f) cleanup w =
     Fatal "Input must consist of two raster maps" w).
Proof.
  intros Hcount.
  assert (Hmain : main o flag_f w = Fatal "Input must consist of two raster maps" w).
  { unfold main, check_input, bind.
    destruct (Nat.eqb_spec (List.length (split_on "," (input o))) 2);
      [contradiction | reflexivity]. }
  split; [exact Hmain|].
  intros Hrm. unfold script. rewrite Hmain. unfold cleanup, bind, get.
  rewrite Hrm. reflexivity.
Qed.

End ChangeProperties.

Section ChangeWitnesses.
Import Change.

Lemma simple_reclass_area_keeps_null :
  forall rg r mode value p,
    r p = None -> @reclass_area Samples.simple rg r mode value p = None.
Proof. intros rg r [] value p H; [exact H | reflexivity]. Qed.


Lemma change_direction_witness :
  exists out : raster,
    rasters (final (@change_raster Samples.simple (Samples.change_options "t1,t2")
                      (Opt "output_forest", 10) Samples.changed_but_same))
      (tempraster_2 (Opt "output_forest")) = Some out /\
    forall p : pixel,
      let changed := exists m, seen (rasters Samples.changed_but_same) tempraster_1 p = Some m /\ m == 1 in
      let t1 := seen (rasters Samples.changed_but_same) (Item "input" 0) p in
      let t2 := seen (rasters Samples.changed_but_same) (Item "input" 1) p in
      (changed -> (exists a, t1 = Some a /\ a == 10) -> out p = Some 1) /\
      (changed -> (exists a, t1 = Some a /\ ~ a == 10) ->
       (exists b, t2 = Some b /\ b == 10) -> out p = Some 2) /\
      (~ changed \/ t1 = None \/
       ((exists a, t1 = Some a /\ ~ a == 10) /\
        ~ (exists b, t2 = Some b /\ b == 10)) -> out p = None).
Proof.
  exact (@change_direction Samples.simple (Samples.change_options "t1,t2")
           (Opt "output_forest") 10 Samples.changed_but_same _ eq_refl).
Defined.

(** C6 as stated fails: in the mask of changes, a cell that is forest at the
    second date holds 1 when it is forest at the first date too, and is null
    when the first date is null -- not 2. *)
Lemma forest_at_both_dates_records_1 :
  let w := Samples.changed_but_same in
  seen (rasters w) tempraster_1 (0, 0)%Z = Some 1 /\
  seen (rasters w) (Item "input" 1) (0, 0)%Z = Some 10 /\
  seen (rasters w) tempraster_1 (0, 1)%Z = Some 1 /\
  seen (rasters w) (Item "input" 1) (0, 1)%Z = Some 10 /\
  exists (w' : world) (out : raster),
    @change_raster Samples.simple (Samples.change_options "t1,t2")
      (Opt "output_forest", 10) w = Done tt w' /\
    rasters w' (tempraster_2 (Opt "output_forest")) = Some out /\
    out (0, 0)%Z = Some 1 /\ out (0, 0)%Z <> Some 2 /\
    out (0, 1)%Z = None /\ out (0, 1)%Z <> Some 2.
Proof.
  cbv zeta. repeat (split; [reflexivity|]).
  eexists. eexists. split; [reflexivity|]. split; [reflexivity|].
  repeat split; try reflexivity; discriminate.
Qed.

Lemma wrong_input_count_is_fatal_witness :
  let o := Samples.change_options "t1,t2,t3" in
  @main Samples.simple o false Samples.two_dates =
    Fatal "Input must consist of two raster maps" Samples.two_dates /\
  (rm_rasters Samples.two_dates = [] ->
   script (@main Samples.simple o false) cleanup Samples.two_dates =
     Fatal "Input must consist of two raster maps" Samples.two_dates).
Proof.
  intros o.
  apply (@wrong_input_count_is_fatal Samples.simple o false Samples.two_dates).
  cbn. discriminate.
Defined.

End ChangeWitnesses.

(** ** v.incora.training_data *)

Lemma eval_ext (rd rd' : name -> cell) (e : expr) :
  (forall m, In m (maps_of e) -> rd m = rd' m) ->
  eval rd e = eval rd' e.
Proof.
  induction e as [m|q| |e IH|e IH|e IH|c IHc a IHa b IHb|op a IHa b IHb];
    intros Hrd; cbn in *.
  - apply Hrd. now left.
  - reflexivity.
  - reflexivity.
  - now rewrite IH.
  - now rewrite IH.
  - now rewrite IH.
  - rewrite IHc, IHa, IHb; [reflexivity| | |];
      intros m Hm; apply Hrd; rewrite !in_app_iff; tauto.
  - rewrite IHa, IHb; [reflexivity| |];
      intros m Hm; apply Hrd; rewrite !in_app_iff; tauto.
Qed.

Lemma falsy_and (z y : cell) : falsy z -> falsy (apply And z y).
Proof.
  intros [-> | ->]; destruct y as [y|]; cbn; unfold falsy; auto.
Qed.

Lemma falsy_and2 (z g : cell) : falsy z -> falsy (apply And2 z g).
Proof.
  intros [-> | ->]; destruct g as [g|]; cbn; unfold falsy; auto.
  destruct (nonzero g); auto.
Qed.

Lemma and_one (a y : cell) :
  apply And (apply And (Some 1) a) y = apply And a y.
Proof.
  destruct a as [a|], y as [y|]; cbn; try reflexivity.
  now rewrite nonzero_truth.
Qed.

Lemma patch_first_value (rs : list raster) (p : pixel) :
  patch rs p = first_value (map (fun r => r p) rs).
Proof.
  induction rs as [|r rest IH]; cbn; [reflexivity|].
  destruct (r p); [reflexivity | exact IH].
Qed.

Lemma first_value_none (rd : name -> cell) (maps : list name) :
  (forall m, In m maps -> rd m = None) ->
  first_value (map rd maps) = None.
Proof.
  induction maps as [|a rest IH]; intros Hnone; cbn; [reflexivity|].
  rewrite (Hnone a) by now left. apply IH. intros m Hm. apply Hnone. now right.
Qed.

Lemma first_value_single (rd : name -> cell) (maps : list name) (m : name) :
  claimants rd maps = [m] -> first_value (map rd maps) = rd m.
Proof.
  unfold claimants. induction maps as [|a rest IH]; cbn; [discriminate|].
  destruct (rd a) as [x|] eqn:Ha.
  - intros H. injection H as <- _. now rewrite Ha.
  - exact IH.
Qed.

Lemma claimants_hold (rd : name -> cell) (maps : list name) (m : name) :
  In m (claimants rd maps) -> In m maps /\ rd m <> None.
Proof.
  unfold claimants. rewrite filter_In. intros [Hin Hm]. split; [exact Hin|].
  now destruct (rd m).
Qed.

Lemma single_length {A : Type} (l : list A) :
  List.length l = 1%nat -> exists a, l = [a].
Proof. destruct l as [|a [|b l]]; try discriminate. now exists a. Qed.

Lemma claims_cell (rd : name -> cell) (m : name) :
  eval rd (Training.claims m) =
  Some (match rd m with Some _ => 1 | None => 0 end).
Proof. cbn. destruct (rd m); reflexivity. Qed.

Lemma sum_from (rd : name -> cell) (rest : list name) :
  forall (acc : expr) (q0 : Q) (n0 : Z),
    eval rd acc = Some q0 -> q0 == inject_Z n0 ->
    exists q,
      eval rd (fold_left (fun sum rast => (sum + Training.claims rast)%mc) rest acc)
        = Some q /\
      q == inject_Z (n0 + Z.of_nat (List.length (claimants rd rest))).
Proof.
  induction rest as [|m rest IH]; intros acc q0 n0 Hacc Hq0.
  - exists q0. split; [exact Hacc|]. cbn. now rewrite Z.add_0_r.
  - cbn [fold_left].
    destruct (IH (acc + Training.claims m)%mc
                 (q0 + match rd m with Some _ => 1 | None => 0 end)
                 (n0 + match rd m with Some _ => 1 | None => 0 end)%Z)
      as (q & Hq & Hcount).
    + cbn [eval]. rewrite Hacc, claims_cell. reflexivity.
    + rewrite inject_Z_plus, Hq0. now destruct (rd m).
    + exists q. split; [exact Hq|]. rewrite Hcount.
      unfold claimants. cbn [filter]. destruct (rd m); cbn [List.length].
      * rewrite Nat2Z.inj_succ. apply inject_Z_injective. lia.
      * apply inject_Z_injective. lia.
Qed.

Lemma sum_of_claims_counts (rd : name -> cell) (maps : list name) :
  maps <> [] ->
  exists q,
    eval rd (Training.sum_of_claims maps) = Some q /\
    q == inject_Z (Z.of_nat (List.length (claimants rd maps))).
Proof.
  destruct maps as [|m rest]; [contradiction|]. intros _.
  unfold Training.sum_of_claims.
  destruct (sum_from rd rest (Training.claims m)
              (match rd m with Some _ => 1 | None => 0 end)
              (match rd m with Some _ => 1 | None => 0 end)%Z)
    as (q & Hq & Hcount).
  - apply claims_cell.
  - now destruct (rd m).
  - exists q. split; [exact Hq|]. rewrite Hcount.
    unfold claimants. cbn [filter]. destruct (rd m); cbn [List.length].
    + rewrite Nat2Z.inj_succ. apply inject_Z_injective. lia.
    + reflexivity.
Qed.

Section TrainingProperties.
Import Training.
Context {P : Primitives}.

Lemma eq_builtup_rule : body eq_builtup = builtup_rule 200 40.
Proof. reflexivity. Qed.

(** The mixed class: null where the built-up candidate has a value, the
    built-up rule with ceiling 220 elsewhere. *)
Lemma eq2_builtup2_cell (rd : name -> cell) :
  eval rd (body eq2_builtup2) =
  match rd builtup_tr with
  | Some _ => None
  | None => eval rd (builtup_rule 220 70)
  end.
Proof.
  cbn [body eq2_builtup2 builtup_rule eval].
  destruct (rd builtup_tr) as [b|].
  - cbn [truth].
    match goal with |- match apply And2 ?z ?g with _ => _ end = _ =>
      assert (Hz : falsy (apply And2 z g)) end.
    { apply falsy_and2. repeat apply falsy_and.
      destruct (rd NDVI_max); cbn; unfold falsy; auto. }
    destruct Hz as [-> | ->]; reflexivity.
  - cbn [truth]. now rewrite and_one.
Qed.

Lemma builtup_rule_masked (rd : name -> cell) (ceiling class : Q) :
  (forall m, In m (maps_of (builtup_rule ceiling class)) -> rd m = None) ->
  eval rd (builtup_rule ceiling class) = None.
Proof.
  intros Hnone. rewrite (eval_ext rd (fun _ => None)); [reflexivity|].
  exact Hnone.
Qed.

Lemma r_buffer_writes (input output : name) (d : Q) (w w' : world) :
  r_buffer input output d w = Done tt w' ->
  exists r, rasters w input = Some r /\
    rasters w' = upd output (Some (buffer (current w) (through_mask (rasters w MASK) r) d)) (rasters w) /\
    current w' = current w.
Proof.
  unfold r_buffer, read_raster, need, bind, call, modify, get, write_raster, fatal, ret. cbn.
  destruct (rasters w input) as [r|]; [|discriminate]. cbn.
  intros H. injection H as <-. exists r. repeat split.
Qed.

Lemma r_mask_writes (n : name) (c : cats) (w w' : world) :
  name_eqb MASK n = false ->
  r_mask n c w = Done tt w' ->
  exists r store,
    rasters w n = Some r /\
    rasters w' = upd MASK (Some (mask_of c r)) store /\
    (forall m, name_eqb MASK m = false -> store m = rasters w m) /\
    current w' = current w.
Proof.
  intros Hn. unfold r_mask, need, bind, call, modify, get, write_raster, delete_raster, fatal, ret, exists_raster. cbn.
  destruct (rasters w MASK) as [m0|].
  - destruct (overwrite w); [|discriminate]. cbn. unfold upd at 1. rewrite Hn.
    destruct (rasters w n) as [r|]; [|discriminate]. cbn.
    intros H. injection H as <-. exists r, (upd MASK None (rasters w)).
    repeat split. intros m Hm. unfold upd. cbn. now rewrite Hm.
  - cbn. destruct (rasters w n) as [r|]; [|discriminate]. cbn.
    intros H. injection H as <-. exists r, (rasters w). repeat split.
Qed.

Lemma r_mask_remove_writes (w w' : world) :
  r_mask_remove w = Done tt w' ->
  rasters w' = upd MASK None (rasters w) /\ current w' = current w.
Proof.
  unfold r_mask_remove, bind, call, modify, get, delete_raster, fatal, exists_raster. cbn.
  destruct (rasters w MASK); [|discriminate]. intros H. injection H as <-. split; reflexivity.
Qed.

Lemma r_mapcalc_reads (a : assignment) (w w' : world) (m : name) :
  r_mapcalc a w = Done tt w' ->
  In m (maps_of (body a)) ->
  exists r, rasters w m = Some r.
Proof.
  unfold r_mapcalc, bind, call, modify, get, write_raster, fatal. cbn.
  destruct (forallb _ _) eqn:Hall; [|discriminate]. intros _ Hin.
  rewrite forallb_forall in Hall. specialize (Hall m Hin).
  unfold exists_raster in Hall. cbn in Hall.
  destruct (rasters w m) as [r|]; [now exists r | discriminate].
Qed.

Lemma water_cell (rd : name -> cell) :
  eval rd (If ((NDWI > Num 130) && IsNull roads_buf10 && IsNull bright_rast)
             (Num water_class) Null) =
  match rd NDWI with
  | None => None
  | Some x =>
      if Qgtb x 130
         && match rd roads_buf10 with None => true | Some _ => false end
         && match rd bright_rast with None => true | Some _ => false end
      then Some 30 else None
  end.
Proof.
  cbn. destruct (rd NDWI) as [x|]; cbn; [|reflexivity].
  rewrite !nonzero_truth.
  destruct (Qgtb x 130 && _ && _); reflexivity.
Qed.


Lemma mask_of_all (r : raster) (p : pixel) :
  unmasked (Some (mask_of all_cats r)) p =
  match r p with Some _ => true | None => false end.
Proof. unfold unmasked, mask_of. destruct (r p); reflexivity. Qed.

(** C10.  The water candidate is computed under the OSM water layer as MASK:
    wherever it holds a value, that value is 30, the OSM water layer is not
    null, NDWI is above 130, the 10 m road buffer is null and the cell is not
    bright. *)
Theorem water_only_on_osm_water (w w' : world) :
  select_water w = Done tt w' ->
  exists (out osm ndwi buf bright : raster),
    rasters w' water_tr = Some out /\
    rasters w map_water = Some osm /\
    rasters w NDWI = Some ndwi /\
    rasters w' roads_buf10 = Some buf /\
    rasters w' bright_rast = Some bright /\
    forall (p : pixel) (v : Q),
      out p = Some v ->
      v = water_class /\
      osm p <> None /\
      (exists x, ndwi p = Some x /\ 130 < x) /\
      buf p = None /\
      bright p = None.
Proof.
  unfold select_water. intros H.
  apply bind_done in H as ([] & w1 & H1 & H). injection H1 as <-.
  apply bind_done in H as ([] & w2 & Hbuf & H).
  apply bind_done in H as ([] & w3 & Hmask & H).
  apply bind_done in H as ([] & w4 & H4 & H). injection H4 as <-.
  apply bind_done in H as ([] & w5 & Hbright & H).
  apply bind_done in H as ([] & w6 & Hwater & H).
  apply bind_done in H as ([] & w7 & H7 & Hrm). injection H7 as <-.
  apply r_buffer_writes in Hbuf as (rds & Hroads & Hw2 & _). cbn in Hroads, Hw2.
  apply r_mask_writes in Hmask as (osm & store & Hosm & Hw3 & Hstore & _);
    [|reflexivity].
  apply r_mapcalc_writes in Hbright as [Hw5 _]. cbn in Hw5.
  pose proof Hwater as Hmaps.
  apply r_mapcalc_writes in Hwater as [Hw6 _]. cbn [target body] in Hw6.
  apply r_mask_remove_writes in Hrm as [Hw' _]. cbn in Hw'.
  assert (Hndwi : exists ndwi, rasters w NDWI = Some ndwi).
  { destruct (r_mapcalc_reads _ _ _ NDWI Hmaps) as (ndwi & Hn);
      [cbn; tauto|].
    rewrite Hw5, Hw3 in Hn. cbn in Hn. rewrite Hstore in Hn by reflexivity.
    rewrite Hw2 in Hn. now exists ndwi. }
  destruct Hndwi as (ndwi & Hndwi).
  rewrite Hw2 in Hosm. cbn in Hosm.
  eexists _, osm, ndwi, _, _.
  split. { rewrite Hw', Hw6. reflexivity. }
  split; [exact Hosm|]. split; [exact Hndwi|].
  split. { rewrite Hw', Hw6, Hw5, Hw3. cbn. rewrite Hstore by reflexivity.
           rewrite Hw2. reflexivity. }
  split. { rewrite Hw', Hw6, Hw5. reflexivity. }
  intros p v. unfold evaluate at 1. rewrite water_cell.
  assert (Hseen : forall m r, name_eqb MASK m = false ->
            rasters w5 m = Some r ->
            seen (rasters w5) m p =
              match osm p with Some _ => r p | None => None end).
  { intros m r Hm Hr. unfold seen. rewrite Hr.
    replace (rasters w5 MASK) with (Some (mask_of all_cats osm))
      by (rewrite Hw5, Hw3; reflexivity).
    unfold through_mask. rewrite mask_of_all. now destruct (osm p). }
  rewrite (Hseen NDWI ndwi) by
    (try reflexivity; rewrite Hw5, Hw3; cbn; rewrite Hstore by reflexivity;
     rewrite Hw2; exact Hndwi).
  rewrite (Hseen roads_buf10 _ eq_refl) by
    (rewrite Hw5, Hw3; cbn; rewrite Hstore by reflexivity; rewrite Hw2;
     reflexivity).
  rewrite (Hseen bright_rast _ eq_refl) by (rewrite Hw5; reflexivity).
  destruct (osm p) as [o|]; [|discriminate].
  destruct (ndwi p) as [x|]; [|discriminate].
  destruct (Qgtb x 130) eqn:Hgt; [|discriminate].
  match goal with |- context [buffer ?g ?r ?d p] =>
    destruct (buffer g r d p) eqn:Hb end; [discriminate|].
  match goal with |- context [evaluate ?s ?e p] =>
    destruct (evaluate s e p) eqn:Hbr end; [discriminate|].
  cbn. intros Hv. injection Hv as <-.
  split; [reflexivity|]. split; [discriminate|].
  split; [exists x; split; [reflexivity | now apply Qgtb_true]|].
  split; reflexivity.
Qed.


(** C2.  The built-up candidate (40) and the mixed built-up candidate (70)
    never both hold a value at a cell: the mixed candidate is null wherever
    the built-up candidate is not, and elsewhere follows the built-up rule
    with the ceiling on NDVI_max raised from 200 to 220. *)
Theorem builtup_and_mixed_are_disjoint (w w' : world) :
  select_builtup w = Done tt w' ->
  exists (b b2 : raster) (store : name -> option raster),
    rasters w' builtup_tr = Some b /\
    rasters w' builtup2_tr = Some b2 /\
    b = evaluate store (builtup_rule 200 40) /\
    (forall p, b2 p = match b p with
                      | Some _ => None
                      | None => evaluate store (builtup_rule 220 70) p
                      end) /\
    (forall p, ~ (b p <> None /\ b2 p <> None)).
Proof.
  unfold select_builtup. intros H.
  apply bind_done in H as ([] & u1 & H1 & H). injection H1 as <-.
  apply bind_done in H as ([] & u2 & _ & H).
  apply bind_done in H as ([] & u3 & H3 & H). injection H3 as <-.
  apply bind_done in H as ([] & u4 & _ & H).
  apply bind_done in H as ([] & u5 & H5 & H). injection H5 as <-.
  apply bind_done in H as ([] & u6 & _ & H).
  apply bind_done in H as ([] & u7 & H7 & H). injection H7 as <-.
  apply bind_done in H as ([] & u8 & Hmask & H).
  apply bind_done in H as ([] & u9 & Hb & H).
  apply bind_done in H as ([] & u10 & Hb2 & Hrm).
  apply r_mask_writes in Hmask as (coast & store & _ & Hu8 & _ & _);
    [|reflexivity].
  apply r_mapcalc_writes in Hb as [Hu9 _].
  apply r_mapcalc_writes in Hb2 as [Hu10 _].
  apply r_mask_remove_writes in Hrm as [Hw' _].
  cbn [target] in Hu9, Hu10. rewrite eq_builtup_rule in Hu9.
  set (b := evaluate (rasters u8) (builtup_rule 200 40)) in *.
  set (b2 := evaluate (rasters u9) (body eq2_builtup2)) in *.
  assert (Hmasked : forall p, unmasked (rasters u8 MASK) p = false -> b p = None).
  { intros p Hp. unfold b, evaluate. apply builtup_rule_masked.
    intros m _. unfold seen. destruct (rasters u8 m); [|reflexivity].
    unfold through_mask. now rewrite Hp. }
  assert (Hb2 : forall p, b2 p = match b p with
                                 | Some _ => None
                                 | None => evaluate (rasters u8) (builtup_rule 220 70) p
                                 end).
  { intros p. unfold b2, evaluate at 1. rewrite eq2_builtup2_cell.
    assert (Hseen : seen (rasters u9) builtup_tr p =
                    if unmasked (rasters u8 MASK) p then b p else None).
    { unfold seen. rewrite Hu9. reflexivity. }
    rewrite Hseen.
    assert (Hrule : eval (fun m => seen (rasters u9) m p) (builtup_rule 220 70) =
                    evaluate (rasters u8) (builtup_rule 220 70) p).
    { unfold evaluate. apply eval_ext. intros m Hm. rewrite Hu9.
      apply seen_write_other; [|reflexivity].
      cbn in Hm. repeat (destruct Hm as [<-|Hm]; [reflexivity|]). destruct Hm. }
    destruct (unmasked (rasters u8 MASK) p) eqn:Hp.
    - destruct (b p); [reflexivity | exact Hrule].
    - rewrite (Hmasked p Hp). exact Hrule. }
  exists b, b2, (rasters u8).
  split. { rewrite Hw', Hu10, Hu9. reflexivity. }
  split. { rewrite Hw', Hu10. reflexivity. }
  split; [reflexivity|]. split; [exact Hb2|].
  intros p [Hbp Hb2p]. rewrite Hb2 in Hb2p. destruct (b p); congruence.
Qed.


Lemma read_rasters_seen (ns : list name) (w w' : world) (rs : list raster) :
  read_rasters ns w = Done rs w' ->
  w' = w /\
  forall p, map (fun r => r p) rs = map (fun m => seen (rasters w) m p) ns.
Proof.
  revert rs w'. induction ns as [|n rest IH]; intros rs w' H.
  - cbn in H. injection H as <- <-. split; reflexivity.
  - cbn [read_rasters] in H.
    apply bind_done in H as (r & w1 & Hr & H).
    apply bind_done in H as (rs' & w2 & Hrest & H).
    injection H as <- <-.
    unfold read_raster, need, bind, get, ret, fatal in Hr.
    destruct (rasters w n) as [r0|] eqn:Hn; [|discriminate].
    injection Hr as <- <-.
    destruct (IH _ _ Hrest) as [-> Hmap]. split; [reflexivity|].
    intros p. cbn [map]. rewrite Hmap. unfold seen at 2. now rewrite Hn.
Qed.

Lemma r_patch_writes (input : list name) (output : name) (w w' : world) :
  r_patch input output w = Done tt w' ->
  exists out,
    rasters w' = upd output (Some out) (rasters w) /\
    forall p, out p = first_value (map (fun m => seen (rasters w) m p) input).
Proof.
  unfold r_patch. intros H.
  apply bind_done in H as ([] & w1 & H1 & H). injection H1 as <-.
  apply bind_done in H as (rs & w2 & Hrs & H).
  apply read_rasters_seen in Hrs as [-> Hmap]. cbn in Hmap.
  injection H as <-. exists (patch rs). split; [reflexivity|].
  intros p. now rewrite patch_first_value, Hmap.
Qed.

Lemma univar_loop_frame (npoints : Z) (l : list name) (w w' : world) :
  for_each l
    (fun rast => n <- r_univar rast ;;
                 if (n <? npoints)%Z then warning rast else ret tt) w
    = Done tt w' ->
  rasters w' = rasters w.
Proof.
  revert w. induction l as [|m rest IH]; intros w H.
  - cbn in H. now injection H as <-.
  - cbn [for_each] in H. apply bind_done in H as ([] & w1 & Hm & Hrest).
    rewrite (IH _ Hrest).
    unfold r_univar, read_raster, need, bind, call, modify, get, ret, fatal,
      warning in Hm. cbn in Hm.
    destruct (rasters w m); [|discriminate]. cbn in Hm.
    destruct (_ <? _)%Z; injection Hm as <-; reflexivity.
Qed.

(** C1.  The merged training raster holds a value at a cell exactly when one
    and only one candidate holds a value there, and then it is that
    candidate's value; a cell claimed by no candidate or by two or more is
    null.  Candidates are taken as the merge reads them. *)
Theorem merged_classes_are_exclusive (npoints : Z) (w w' : world) :
  merge npoints w = Done tt w' ->
  exists out : raster,
    rasters w' output = Some out /\
    forall p : pixel,
      let rd := fun m => seen (rasters w) m p in
      (forall v, out p = Some v <->
                 exists m, claimants rd tr_maps = [m] /\ rd m = Some v) /\
      (List.length (claimants rd tr_maps) <> 1%nat -> out p = None).
Proof.
  unfold merge. intros H.
  apply bind_done in H as ([] & v1 & Hsum & H).
  apply bind_done in H as ([] & v2 & H2 & H). injection H2 as <-.
  apply bind_done in H as ([] & v3 & Hmask & H).
  apply bind_done in H as ([] & v4 & H4 & H). injection H4 as <-.
  apply bind_done in H as ([] & v5 & Hrmask & H).
  apply bind_done in H as ([] & v6 & Hloop & H).
  apply bind_done in H as ([] & v7 & Hpatch & H).
  apply bind_done in H as ([] & v8 & Hrm & H). injection H as <-.
  assert (Hexist : forall m, In m tr_maps -> exists r, rasters w m = Some r).
  { intros m Hm. apply (r_mapcalc_reads _ _ _ m Hsum). cbn. cbn in Hm. tauto. }
  apply r_mapcalc_writes in Hsum as [Hv1 _]. cbn [target body] in Hv1.
  apply r_mapcalc_writes in Hmask as [Hv3 _]. cbn [target body] in Hv3.
  cbn [rasters with_rm_rasters] in Hv3.
  apply r_mask_writes in Hrmask as (tm & store & Htm & Hv5 & Hstore & _);
    [|reflexivity].
  cbn [rasters with_rm_rasters] in Htm, Hstore.
  apply univar_loop_frame in Hloop.
  apply r_patch_writes in Hpatch as (out & Hv7 & Hout).
  apply r_mask_remove_writes in Hrm as [Hv8 _].
  exists out. split.
  { cbn [rasters with_rm_rasters]. rewrite Hv8, Hv7. reflexivity. }
  intros p. set (rd := fun m => seen (rasters w) m p).
  (* the mask of unambiguous cells at [p] *)
  rewrite Hv3 in Htm. unfold upd at 1 in Htm. cbn in Htm. injection Htm as <-.
  set (sum := evaluate (rasters w) (sum_of_claims tr_maps)) in *.
  destruct (sum_of_claims_counts rd tr_maps) as (q & Hq & Hcount);
    [discriminate|].
  assert (Hvalid : unmasked (rasters v5 MASK) p =
                   unmasked (rasters w MASK) p && Qeq_bool q 1).
  { rewrite Hv5. unfold upd at 1. cbn [name_eqb]. rewrite mask_of_all.
    unfold evaluate. cbn [eval].
    assert (Hs : seen (rasters v1) tr_sum p =
                 if unmasked (rasters w MASK) p then Some q else None).
    { unfold seen. rewrite Hv1. unfold upd. cbn.
      unfold through_mask, sum, evaluate. fold rd. now rewrite Hq. }
    rewrite Hs. destruct (unmasked (rasters w MASK) p); cbn; [|reflexivity].
    rewrite nonzero_truth. now destruct (Qeq_bool q 1). }
  assert (Hread : forall m, In m tr_maps ->
            seen (rasters v6) m p =
            if unmasked (rasters v5 MASK) p
            then match rasters w m with Some r => r p | None => None end
            else None).
  { intros m Hm. rewrite Hloop. unfold seen.
    replace (rasters v5 m) with (rasters w m).
    - destruct (rasters w m); [reflexivity | now destruct (unmasked _ p)].
    - rewrite Hv5. cbn in Hm.
      repeat (destruct Hm as [<-|Hm];
              [unfold upd at 1; cbn; rewrite Hstore by reflexivity;
               rewrite Hv3, Hv1; reflexivity|]).
      destruct Hm. }
  assert (Hone : Qeq_bool q 1 = true <->
                 List.length (claimants rd tr_maps) = 1%nat).
  { rewrite Qeq_bool_iff, Hcount.
    change 1 with (inject_Z 1). rewrite inject_Z_injective. lia. }
  assert (Hrd : unmasked (rasters w MASK) p = true ->
                forall m, In m tr_maps ->
                  rd m = match rasters w m with Some r => r p | None => None end).
  { intros Hu m Hm. unfold rd, seen, through_mask. rewrite Hu.
    now destruct (rasters w m). }
  assert (Hclaimed : forall m v, rd m = Some v ->
                                 unmasked (rasters w MASK) p = true).
  { intros m v. unfold rd, seen, through_mask.
    destruct (rasters w m); [|discriminate].
    now destruct (unmasked (rasters w MASK) p). }
  rewrite Hout.
  destruct (unmasked (rasters v5 MASK) p) eqn:Hin.
  - (* one claim, and the cell is read *)
    symmetry in Hvalid. apply andb_true_iff in Hvalid as [Hu Hq1].
    apply Hone in Hq1. destruct (single_length _ Hq1) as (m0 & Hm0).
    assert (Hfirst : first_value (map (fun m => seen (rasters v6) m p) tr_maps)
                     = rd m0).
    { rewrite <- (first_value_single rd tr_maps m0 Hm0). f_equal.
      apply map_ext_in. intros m Hm. rewrite (Hread m Hm), (Hrd Hu m Hm).
      reflexivity. }
    rewrite Hfirst. split; [|intros Hne; contradiction].
    intros v. split.
    + intros Hv. now exists m0.
    + intros (m & Hm & Hv). rewrite Hm0 in Hm. injection Hm as ->. exact Hv.
  - (* no claim, several claims, or masked *)
    assert (Hfirst : first_value (map (fun m => seen (rasters v6) m p) tr_maps)
                     = None).
    { apply first_value_none. intros m Hm. now rewrite (Hread m Hm). }
    rewrite Hfirst. split; [|reflexivity].
    intros v. split; [discriminate|].
    intros (m & Hm & Hv). exfalso.
    assert (Hu := Hclaimed m v Hv).
    assert (Hq1 : Qeq_bool q 1 = true) by (apply Hone; now rewrite Hm).
    rewrite Hu, Hq1 in Hvalid. discriminate.
Qed.


(** C8.  [get_percentile] returns the same scalar, or stops on the same
    error, whenever the layer, the MASK and the region are the same; it
    changes none of them, so calling it twice in a row gives the same
    answer twice. *)
Theorem get_percentile_is_repeatable (raster : name) (percentile : Q) :
  (forall w1 w2 : world,
     rasters w1 raster = rasters w2 raster ->
     rasters w1 MASK = rasters w2 MASK ->
     current w1 = current w2 ->
     returned (get_percentile raster percentile w1) =
     returned (get_percentile raster percentile w2)) /\
  (forall w : world,
     rasters (final (get_percentile raster percentile w)) = rasters w /\
     current (final (get_percentile raster percentile w)) = current w /\
     returned (get_percentile raster percentile
                 (final (get_percentile raster percentile w))) =
     returned (get_percentile raster percentile w)).
Proof.
  assert (Hshape : forall w,
    rasters (final (get_percentile raster percentile w)) = rasters w /\
    current (final (get_percentile raster percentile w)) = current w /\
    returned (get_percentile raster percentile w) =
      match rasters w raster with
      | None => inr "Raster map not found"
      | Some r =>
          match quantile (current w) (through_mask (rasters w MASK) r) percentile with
          | [] => inr "IndexError: list index out of range"
          | first :: _ =>
              match nth_error (split_on ":" first) 2 with
              | None => inr "IndexError: list index out of range"
              | Some field =>
                  match float field with
                  | Some x => inl x
                  | None => inr "ValueError: could not convert string to float"
                  end
              end
          end
      end).
  { intros w.
    unfold get_percentile, r_quantile, read_raster, need, bind, call, modify,
      get, ret, fatal. cbn -[nth_error split_on].
    destruct (rasters w raster) as [r|]; cbn -[nth_error split_on];
      [|repeat split].
    destruct (quantile _ _ _) as [|first rest]; cbn -[nth_error split_on];
      [repeat split|].
    destruct (nth_error (split_on ":" first) 2) as [field|];
      cbn -[nth_error split_on]; [|repeat split].
    destruct (float field); cbn; repeat split. }
  split.
  - intros w1 w2 Hr Hm Hc.
    destruct (Hshape w1) as (_ & _ & ->). destruct (Hshape w2) as (_ & _ & ->).
    now rewrite Hr, Hm, Hc.
  - intros w. destruct (Hshape w) as (Hr & Hc & Hv).
    split; [exact Hr|]. split; [exact Hc|].
    destruct (Hshape (final (get_percentile raster percentile w)))
      as (_ & _ & ->).
    now rewrite Hv, Hr, Hc.
Qed.

End TrainingProperties.

Section TrainingWitnesses.
Import Training.

Lemma water_only_on_osm_water_witness :
  exists (out osm ndwi buf bright : raster),
    rasters (final (@select_water Samples.simple Samples.before_water)) water_tr
      = Some out /\
    rasters Samples.before_water map_water = Some osm /\
    rasters Samples.before_water NDWI = Some ndwi /\
    rasters (final (@select_water Samples.simple Samples.before_water))
      roads_buf10 = Some buf /\
    rasters (final (@select_water Samples.simple Samples.before_water))
      bright_rast = Some bright /\
    forall (p : pixel) (v : Q),
      out p = Some v ->
      v = water_class /\
      osm p <> None /\
      (exists x, ndwi p = Some x /\ 130 < x) /\
      buf p = None /\
      bright p = None.
Proof.
  apply (@water_only_on_osm_water Samples.simple Samples.before_water).
  apply succeeded_final. vm_compute. reflexivity.
Defined.

Lemma builtup_and_mixed_are_disjoint_witness :
  exists (b b2 : raster) (store : name -> option raster),
    rasters (final (@select_builtup Samples.simple Samples.before_builtup))
      builtup_tr = Some b /\
    rasters (final (@select_builtup Samples.simple Samples.before_builtup))
      builtup2_tr = Some b2 /\
    b = evaluate store (builtup_rule 200 40) /\
    (forall p, b2 p = match b p with
                      | Some _ => None
                      | None => evaluate store (builtup_rule 220 70) p
                      end) /\
    (forall p, ~ (b p <> None /\ b2 p <> None)).
Proof.
  apply (@builtup_and_mixed_are_disjoint Samples.simple Samples.before_builtup).
  apply succeeded_final. vm_compute. reflexivity.
Defined.

Lemma merged_classes_are_exclusive_witness :
  exists out : raster,
    rasters (final (@merge Samples.simple 10 Samples.before_merge)) output
      = Some out /\
    forall p : pixel,
      let rd := fun m => seen (rasters Samples.before_merge) m p in
      (forall v, out p = Some v <->
                 exists m, claimants rd tr_maps = [m] /\ rd m = Some v) /\
      (List.length (claimants rd tr_maps) <> 1%nat -> out p = None).
Proof.
  apply (@merged_classes_are_exclusive Samples.simple 10 Samples.before_merge).
  apply succeeded_final. vm_compute. reflexivity.
Defined.

Lemma get_percentile_is_repeatable_witness :
  returned (@get_percentile Samples.simple NDVI_max 5 Samples.countryside) =
  returned (@get_percentile Samples.simple NDVI_max 5 Samples.before_water).
Proof.
  exact (proj1 (@get_percentile_is_repeatable Samples.simple NDVI_max 5)
           Samples.countryside Samples.before_water
           eq_refl eq_refl eq_refl).
Defined.

(** C9, at a failing input.  The user has a MASK and the imperviousness map
    does not exist: r.buffer fails in the coarse region, under the coastline
    MASK of the bare-soil step; the exit handler's r.mask is refused because
    a MASK exists, and the handler stops there.  The session is left in the
    100 m region, the MASK is the coastline one, and the user's mask sits
    under its temporary name. *)
Theorem cleanup_leaves_region_and_mask :
  let w := Samples.masked_without_imperviousness in
  let exit := script (@main Samples.simple 10) cleanup w in
  returned exit = inr "Raster map not found" /\
  current (final exit) = align_res 100 (current w) /\
  current (final exit) <> current w /\
  option_map (fun m => m (1, 1)%Z) (rasters w MASK) = Some None /\
  option_map (fun m => m (1, 1)%Z) (rasters (final exit) MASK)
    = Some (Some 1) /\
  option_map (fun m => m (0, 0)%Z) (rasters (final exit) mask_tmp)
    = Some (Some 1) /\
  oldregion (final exit) = Some region_tmp /\
  regions (final exit) region_tmp = Some (current w).
Proof.
  cbv zeta. repeat split; try (vm_compute; reflexivity).
  vm_compute. discriminate.
Qed.

End TrainingWitnesses.

(** ** More of r.incora.postproc *)

Lemma append_mapcalc_writes (t : name) (e : expr) (w w' : world) :
  (rm_rasters_append t ;; r_mapcalc (t :== e)) w = Done tt w' ->
  rasters w' = upd t (Some (evaluate (rasters w) e)) (rasters w) /\
  current w' = current w.
Proof.
  intros H. apply bind_done in H as ([] & w1 & H1 & H). injection H1 as <-.
  apply r_mapcalc_writes in H as [H Hc]. now split.
Qed.

Lemma seen_through (store : name -> option raster) (n : name) (r : raster)
  (p : pixel) (v : Q) :
  store n = Some r -> seen store n p = Some v -> r p = Some v.
Proof.
  intros Hn. unfold seen, through_mask. rewrite Hn.
  now destruct (unmasked (store MASK) p).
Qed.

Lemma Qfloor_half (v : Q) (z : Z) :
  v == inject_Z z -> Qfloor (v + (1 # 2)) = z.
Proof.
  intros Hv. rewrite (Qfloor_comp _ (inject_Z z + (1 # 2))) by now rewrite Hv.
  unfold Qfloor, inject_Z, Qplus. cbn.
  replace (z * 2 + 1)%Z with (1 + z * 2)%Z by lia.
  rewrite Z.div_add by discriminate. reflexivity.
Qed.

Section PostprocPasses.
Import Postproc.
Context {P : Primitives}.

Lemma remove_mixed_cell (rd : name -> cell) :
  eval rd (If (water_elevation == Num 70) Null water_elevation) =
  match rd water_elevation with
  | Some v => if Qeq_bool v 70 then None else Some v
  | None => None
  end.
Proof.
  cbn. destruct (rd water_elevation) as [v|]; cbn; [|reflexivity].
  rewrite nonzero_truth. reflexivity.
Qed.

Lemma coast_cell (rd : name -> cell) :
  eval rd (If (IsNull coastline &&& (rounded == Num 40)) (Num 50) rounded) =
  match rd rounded with
  | None => None
  | Some c =>
      if match rd coastline with None => true | Some _ => false end
         && Qeq_bool c 40
      then Some 50 else Some c
  end.
Proof.
  cbn. destruct (rd rounded) as [c|], (rd coastline); cbn;
    rewrite ?nonzero_truth; cbn; reflexivity.
Qed.

Lemma elevation_cell (rd : name -> cell) :
  eval rd (If ((dem > Num 1500) && (coast_corrected == Num 40)) (Num 50)
             (If ((dem > Num 800) && (coast_corrected == Num 60)) (Num 20)
                 coast_corrected)) =
  match rd dem, rd coast_corrected with
  | Some h, Some c =>
      if Qgtb h 1500 && Qeq_bool c 40 then Some 50
      else if Qgtb h 800 && Qeq_bool c 60 then Some 20
      else Some c
  | _, _ => None
  end.
Proof.
  cbn. destruct (rd dem) as [h|], (rd coast_corrected) as [c|]; cbn;
    try reflexivity.
  rewrite !nonzero_truth.
  destruct (Qgtb h 1500 && Qeq_bool c 40); [reflexivity|].
  destruct (Qgtb h 800 && Qeq_bool c 60); reflexivity.
Qed.

Lemma agr_only_cell (rd : name -> cell) :
  eval rd (If (elevation_corrected == Num 60) (Num 60) Null) =
  match rd elevation_corrected with
  | Some c => if Qeq_bool c 60 then Some 60 else None
  | None => None
  end.
Proof.
  cbn. destruct (rd elevation_corrected) as [c|]; cbn; [|reflexivity].
  now rewrite nonzero_truth.
Qed.

Lemma agr_corrected_cell (rd : name -> cell) :
  eval rd (If (IsNull small_areas) elevation_corrected (Num 20)) =
  match rd small_areas with
  | None => rd elevation_corrected
  | Some _ => Some 20
  end.
Proof. cbn. destruct (rd small_areas); reflexivity. Qed.

(** X1.  The second pass of r.incora.postproc: a cell read as 70 (mixed)
    becomes null, every other cell keeps its value, so the result holds no
    70. *)
Theorem remove_mixed_cells (w w' : world) :
  remove_mixed w = Done tt w' ->
  exists out : raster,
    rasters w' postproc_raster2 = Some out /\
    holds_no 70 out /\
    forall p : pixel,
      match seen (rasters w) water_elevation p with
      | Some v => (v == 70 -> out p = None) /\ (~ v == 70 -> out p = Some v)
      | None => out p = None
      end.
Proof.
  unfold remove_mixed. intros H. apply append_mapcalc_writes in H as [H _].
  eexists. split; [rewrite H; reflexivity|].
  assert (Hcell : forall p,
    match seen (rasters w) water_elevation p with
    | Some v =>
        (v == 70 -> evaluate (rasters w)
                      (If (water_elevation == Num 70) Null water_elevation) p = None) /\
        (~ v == 70 -> evaluate (rasters w)
                        (If (water_elevation == Num 70) Null water_elevation) p = Some v)
    | None => evaluate (rasters w)
                (If (water_elevation == Num 70) Null water_elevation) p = None
    end).
  { intros p. unfold evaluate. rewrite remove_mixed_cell.
    destruct (seen (rasters w) water_elevation p) as [v|]; [|reflexivity].
    split; intros Hv.
    - apply Qeq_bool_iff in Hv. now rewrite Hv.
    - apply Qeq_bool_false in Hv. now rewrite Hv. }
  split; [|exact Hcell].
  intros p v Hout Hv. specialize (Hcell p).
  destruct (seen (rasters w) water_elevation p) as [c|].
  - destruct (Qeq_dec c 70) as [Hc|Hc].
    + rewrite (proj1 Hcell Hc) in Hout. discriminate.
    + rewrite (proj2 Hcell Hc) in Hout. injection Hout as <-. contradiction.
  - rewrite Hcell in Hout. discriminate.
Qed.


(** X2.  The coast pass of r.incora.postproc: a built-up cell (40) that is
    null in the land/sea raster becomes bare soil (50); every other cell
    keeps its value. *)
Theorem correct_coast_cells (w w' : world) :
  correct_coast w = Done tt w' ->
  exists out : raster,
    rasters w' coast_corrected = Some out /\
    forall p : pixel,
      match seen (rasters w) rounded p with
      | Some c =>
          (seen (rasters w) coastline p = None -> c == 40 ->
           out p = Some 50) /\
          (~ (seen (rasters w) coastline p = None /\ c == 40) ->
           out p = Some c)
      | None => out p = None
      end.
Proof.
  unfold correct_coast. intros H. apply append_mapcalc_writes in H as [H _].
  eexists. split; [rewrite H; reflexivity|].
  intros p. unfold evaluate. rewrite coast_cell.
  destruct (seen (rasters w) rounded p) as [c|]; [|reflexivity]. split.
  - intros -> Hc. apply Qeq_bool_iff in Hc. now rewrite Hc.
  - intros Hnot. destruct (seen (rasters w) coastline p); [reflexivity|].
    destruct (Qeq_bool c 40) eqn:Hc; [|reflexivity].
    exfalso. apply Hnot. split; [reflexivity | now apply Qeq_bool_iff].
Qed.

(** X3.  The elevation pass of r.incora.postproc: built-up (40) above 1500
    becomes bare soil (50), agriculture (60) above 800 becomes low
    vegetation (20), every other cell with an elevation keeps its value; a
    cell without elevation becomes null. *)
Theorem correct_elevation_cells (w w' : world) :
  correct_elevation w = Done tt w' ->
  exists out : raster,
    rasters w' elevation_corrected = Some out /\
    forall p : pixel,
      match seen (rasters w) dem p, seen (rasters w) coast_corrected p with
      | Some h, Some c =>
          (1500 < h -> c == 40 -> out p = Some 50) /\
          (800 < h -> c == 60 -> out p = Some 20) /\
          (~ (1500 < h /\ c == 40) -> ~ (800 < h /\ c == 60) ->
           out p = Some c)
      | _, _ => out p = None
      end.
Proof.
  unfold correct_elevation. intros H.
  apply append_mapcalc_writes in H as [H _].
  eexists. split; [rewrite H; reflexivity|].
  intros p. unfold evaluate. rewrite elevation_cell.
  destruct (seen (rasters w) dem p) as [h|]; [|reflexivity].
  destruct (seen (rasters w) coast_corrected p) as [c|]; [|reflexivity].
  repeat split.
  - intros Hh Hc. apply Qgtb_true in Hh. apply Qeq_bool_iff in Hc.
    now rewrite Hh, Hc.
  - intros Hh Hc.
    assert (Hc40 : Qeq_bool c 40 = false).
    { apply Qeq_bool_false. intros H40. rewrite Hc in H40. discriminate H40. }
    apply Qgtb_true in Hh. apply Qeq_bool_iff in Hc.
    rewrite Hc40, andb_false_r, Hh, Hc. reflexivity.
  - intros Hn1 Hn2.
    destruct (Qgtb h 1500 && Qeq_bool c 40) eqn:H1.
    { exfalso. apply Hn1. apply andb_true_iff in H1 as [Ha Hb].
      split; [now apply Qgtb_true | now apply Qeq_bool_iff]. }
    destruct (Qgtb h 800 && Qeq_bool c 60) eqn:H2; [|reflexivity].
    exfalso. apply Hn2. apply andb_true_iff in H2 as [Ha Hb].
    split; [now apply Qgtb_true | now apply Qeq_bool_iff].
Qed.

Lemma small_agriculture_writes (w w' : world) :
  correct_small_agriculture w = Done tt w' ->
  exists (only small : raster),
    only = evaluate (rasters w) (If (elevation_corrected == Num 60) (Num 60) Null) /\
    small = reclass_area (current w) (through_mask (rasters w MASK) only)
              lesser (15 # 10) /\
    rasters w' =
      upd agr_corrected
        (Some (evaluate
                 (upd small_areas (Some small)
                    (upd agr_only (Some only) (rasters w)))
                 (If (IsNull small_areas) elevation_corrected (Num 20))))
        (upd small_areas (Some small) (upd agr_only (Some only) (rasters w))).
Proof.
  unfold correct_small_agriculture. intros H.
  apply bind_done in H as ([] & u1 & H1 & H). injection H1 as <-.
  apply bind_done in H as ([] & u2 & Honly & H).
  apply bind_done in H as ([] & u3 & H3 & H). injection H3 as <-.
  apply bind_done in H as ([] & u4 & Hsmall & H).
  apply r_mapcalc_writes in Honly as [Hu2 Hc2]. cbn [target body] in Hu2.
  cbn [rasters current with_rm_rasters] in Hu2, Hc2.
  apply r_reclass_area_writes in Hsmall as (r & Hr & Hu4).
  cbn [rasters current with_rm_rasters] in Hr, Hu4.
  rewrite Hu2 in Hr. unfold upd at 1 in Hr. cbn in Hr. injection Hr as <-.
  apply append_mapcalc_writes in H as [H _].
  eexists _, _. split; [reflexivity|]. split; [reflexivity|].
  rewrite H, Hu4, Hu2, Hc2. reflexivity.
Qed.

(** X4.  The area pass of r.incora.postproc: a cell either keeps its value or
    was agriculture (60) and becomes low vegetation (20), given that
    r.reclass.area keeps null cells null. *)
Theorem small_agriculture_cells (w w' : world) :
  (forall rg r mode value p,
     r p = None -> reclass_area rg r mode value p = None) ->
  correct_small_agriculture w = Done tt w' ->
  exists out : raster,
    rasters w' agr_corrected = Some out /\
    forall p : pixel,
      let c := seen (rasters w) elevation_corrected p in
      out p = c \/ (out p = Some 20 /\ exists cv, c = Some cv /\ cv == 60).
Proof.
  intros Hkeep H. apply small_agriculture_writes in H as (only & small & Ho & Hs & H).
  eexists. split; [rewrite H; reflexivity|].
  intros p c. unfold evaluate. rewrite agr_corrected_cell.
  rewrite (seen_write_other _ small_areas elevation_corrected) by reflexivity.
  rewrite (seen_write_other _ agr_only elevation_corrected) by reflexivity.
  fold c.
  destruct (seen _ small_areas p) as [s|] eqn:Hseen; [|now left].
  right. split; [reflexivity|].
  apply (seen_through _ small_areas small) in Hseen; [|reflexivity].
  destruct (through_mask (rasters w MASK) only p) as [a|] eqn:Ha.
  - unfold through_mask in Ha.
    destruct (unmasked (rasters w MASK) p); [|discriminate].
    rewrite Ho in Ha. unfold evaluate in Ha. rewrite agr_only_cell in Ha.
    fold c in Ha. destruct c as [cv|]; [|discriminate].
    destruct (Qeq_bool cv 60) eqn:Hcv; [|discriminate].
    exists cv. split; [reflexivity | now apply Qeq_bool_iff].
  - rewrite Hs, (Hkeep _ _ _ _ _ Ha) in Hseen. discriminate.
Qed.


Lemma not_70 (c : Q) : c = 50 \/ c = 20 \/ c = 30 -> ~ c == 70.
Proof. intros [-> | [-> | ->]] H; discriminate H. Qed.

Lemma rebrand_whole (w w' : world) (cls : raster) :
  rasters w raster_7classes = Some cls -> whole cls ->
  rebrand_high_water w = Done tt w' ->
  exists out, rasters w' water_elevation = Some out /\ whole out.
Proof.
  intros Hcls Hwhole H. unfold rebrand_high_water in H.
  apply append_mapcalc_writes in H as [H _].
  eexists. split; [rewrite H; reflexivity|].
  intros p v. unfold evaluate. rewrite water_elevation_cell.
  destruct (seen (rasters w) dem p) as [h|]; [|discriminate].
  destruct (seen (rasters w) raster_7classes p) as [c|] eqn:Hc; [|discriminate].
  apply (seen_through _ _ cls) in Hc; [|exact Hcls].
  destruct (Qgtb h 1000 && Qeq_bool c 30); intros Hv; injection Hv as <-.
  - now exists 70%Z.
  - exact (Hwhole p c Hc).
Qed.

Lemma remove_mixed_whole (w w' : world) (r : raster) :
  rasters w water_elevation = Some r -> whole r ->
  remove_mixed w = Done tt w' ->
  exists out, rasters w' postproc_raster2 = Some out /\
              whole out /\ holds_no 70 out.
Proof.
  intros Hr Hwhole H. unfold remove_mixed in H.
  apply append_mapcalc_writes in H as [H _].
  eexists. split; [rewrite H; reflexivity|].
  assert (Hv : forall p v,
    evaluate (rasters w) (If (water_elevation == Num 70) Null water_elevation) p
      = Some v -> r p = Some v /\ ~ v == 70).
  { intros p v. unfold evaluate. rewrite remove_mixed_cell.
    destruct (seen (rasters w) water_elevation p) as [c|] eqn:Hc; [|discriminate].
    apply (seen_through _ _ r) in Hc; [|exact Hr].
    destruct (Qeq_bool c 70) eqn:H70; [discriminate|].
    intros Hv. injection Hv as <-. split; [exact Hc | now apply Qeq_bool_false]. }
  split.
  - intros p v Hp. exact (Hwhole p v (proj1 (Hv p v Hp))).
  - intros p v Hp. exact (proj2 (Hv p v Hp)).
Qed.

Lemma r_grow_distance_writes (input value : name) (w w' : world) :
  r_grow_distance input value w = Done tt w' ->
  exists r, rasters w input = Some r /\
    rasters w' = upd value
      (Some (grow_distance (current w) (through_mask (rasters w MASK) r)))
      (rasters w).
Proof.
  unfold r_grow_distance, read_raster, need, bind, call, modify, get, ret,
    write_raster, fatal. cbn.
  destruct (rasters w input) as [r|]; [|discriminate]. cbn.
  intros H. injection H as <-. exists r. split; reflexivity.
Qed.

Lemma fill_gaps_no_mixed (w w' : world) (r : raster) :
  (forall rg r0 p v, grow_distance rg r0 p = Some v -> exists q, r0 q = Some v) ->
  rasters w postproc_raster2 = Some r -> whole r -> holds_no 70 r ->
  fill_gaps w = Done tt w' ->
  exists out, rasters w' rounded = Some out /\ holds_no 70 out.
Proof.
  intros Hgrow Hr Hwhole Hno H. unfold fill_gaps in H.
  apply bind_done in H as ([] & u1 & H1 & H). injection H1 as <-.
  apply bind_done in H as ([] & u2 & Hg & H).
  apply r_grow_distance_writes in Hg as (r0 & Hr0 & Hu2).
  cbn [rasters current with_rm_rasters] in Hr0, Hu2.
  rewrite Hr in Hr0. injection Hr0 as <-.
  apply append_mapcalc_writes in H as [H _].
  eexists. split; [rewrite H; reflexivity|].
  intros p v. unfold evaluate. cbn [eval].
  destruct (seen (rasters u2) grow_raster p) as [g|] eqn:Hseen; [|discriminate].
  apply (seen_through _ _
           (grow_distance (current w) (through_mask (rasters w MASK) r)) p g)
    in Hseen; [|rewrite Hu2; reflexivity].
  apply Hgrow in Hseen as (q & Hq). unfold through_mask in Hq.
  destruct (unmasked _ q); [|discriminate].
  destruct (Hwhole q g Hq) as (z & Hz).
  intros Hv. injection Hv as <-.
  change (~ inject_Z (Qfloor (g + (1 # 2))) == 70).
  rewrite (Qfloor_half g z Hz), <- Hz.
  exact (Hno q g Hq).
Qed.

Lemma correct_coast_no_mixed (w w' : world) (r : raster) :
  rasters w rounded = Some r -> holds_no 70 r ->
  correct_coast w = Done tt w' ->
  exists out, rasters w' coast_corrected = Some out /\ holds_no 70 out.
Proof.
  intros Hr Hno H. unfold correct_coast in H.
  apply append_mapcalc_writes in H as [H _].
  eexists. split; [rewrite H; reflexivity|].
  intros p v. unfold evaluate. rewrite coast_cell.
  destruct (seen (rasters w) rounded p) as [c|] eqn:Hc; [|discriminate].
  apply (seen_through _ _ r) in Hc; [|exact Hr].
  destruct (_ && _); intros Hv; injection Hv as <-.
  - apply not_70. tauto.
  - exact (Hno p c Hc).
Qed.

Lemma correct_elevation_no_mixed (w w' : world) (r : raster) :
  rasters w coast_corrected = Some r -> holds_no 70 r ->
  correct_elevation w = Done tt w' ->
  exists out, rasters w' elevation_corrected = Some out /\ holds_no 70 out.
Proof.
  intros Hr Hno H. unfold correct_elevation in H.
  apply append_mapcalc_writes in H as [H _].
  eexists. split; [rewrite H; reflexivity|].
  intros p v. unfold evaluate. rewrite elevation_cell.
  destruct (seen (rasters w) dem p) as [h|]; [|discriminate].
  destruct (seen (rasters w) coast_corrected p) as [c|] eqn:Hc; [|discriminate].
  apply (seen_through _ _ r) in Hc; [|exact Hr].
  destruct (Qgtb h 1500 && _); [intros Hv; injection Hv as <-; apply not_70; tauto|].
  destruct (Qgtb h 800 && _); intros Hv; injection Hv as <-.
  - apply not_70. tauto.
  - exact (Hno p c Hc).
Qed.

Lemma small_agriculture_no_mixed (w w' : world) (r : raster) :
  rasters w elevation_corrected = Some r -> holds_no 70 r ->
  correct_small_agriculture w = Done tt w' ->
  exists out, rasters w' agr_corrected = Some out /\ holds_no 70 out.
Proof.
  intros Hr Hno H.
  apply small_agriculture_writes in H as (only & small & _ & _ & H).
  eexists. split; [rewrite H; reflexivity|].
  intros p v. unfold evaluate. rewrite agr_corrected_cell.
  rewrite (seen_write_other _ small_areas elevation_corrected) by reflexivity.
  rewrite (seen_write_other _ agr_only elevation_corrected) by reflexivity.
  destruct (seen _ small_areas p).
  - intros Hv. injection Hv as <-. apply not_70. tauto.
  - intros Hc. apply (seen_through _ _ r) in Hc; [|exact Hr].
    exact (Hno p v Hc).
Qed.

Lemma remove_builtup_no_mixed (w w' : world) (r : raster) :
  rasters w agr_corrected = Some r -> holds_no 70 r ->
  remove_builtup_on_water w = Done tt w' ->
  exists out, rasters w' output = Some out /\ holds_no 70 out.
Proof.
  intros Hr Hno H. unfold remove_builtup_on_water in H.
  apply r_mapcalc_writes in H as [H _].
  eexists. split; [rewrite H; reflexivity|].
  intros p v. unfold evaluate. rewrite output_cell.
  destruct (seen (rasters w) agr_corrected p) as [c|] eqn:Hc; [|discriminate].
  apply (seen_through _ _ r) in Hc; [|exact Hr].
  destruct (_ && _); intros Hv; injection Hv as <-.
  - apply not_70. tauto.
  - exact (Hno p c Hc).
Qed.

(** X5.  The output of r.incora.postproc has six classes: the code 70 of the
    mixed class is nowhere in it, when the input holds whole numbers and
    r.grow.distance takes its values from the cells it is given. *)
Theorem output_has_no_mixed_class (w w' : world) (cls : raster) :
  (forall rg r p v, grow_distance rg r p = Some v -> exists q, r q = Some v) ->
  rasters w raster_7classes = Some cls ->
  whole cls ->
  main w = Done tt w' ->
  exists out : raster, rasters w' output = Some out /\ holds_no 70 out.
Proof.
  intros Hgrow Hcls Hwhole H. unfold main in H.
  apply bind_done in H as ([] & u1 & H1 & H).
  apply bind_done in H as ([] & u2 & H2 & H).
  apply bind_done in H as ([] & u3 & H3 & H).
  apply bind_done in H as ([] & u4 & H4 & H).
  apply bind_done in H as ([] & u5 & H5 & H).
  apply bind_done in H as ([] & u6 & H6 & H).
  destruct (rebrand_whole w u1 cls Hcls Hwhole H1) as (r1 & Hr1 & Hw1).
  destruct (remove_mixed_whole u1 u2 r1 Hr1 Hw1 H2) as (r2 & Hr2 & Hw2 & Hn2).
  destruct (fill_gaps_no_mixed u2 u3 r2 Hgrow Hr2 Hw2 Hn2 H3) as (r3 & Hr3 & Hn3).
  destruct (correct_coast_no_mixed u3 u4 r3 Hr3 Hn3 H4) as (r4 & Hr4 & Hn4).
  destruct (correct_elevation_no_mixed u4 u5 r4 Hr4 Hn4 H5) as (r5 & Hr5 & Hn5).
  destruct (small_agriculture_no_mixed u5 u6 r5 Hr5 Hn5 H6) as (r6 & Hr6 & Hn6).
  exact (remove_builtup_no_mixed u6 w' r6 Hr6 Hn6 H).
Qed.

End PostprocPasses.

Section PostprocPassesWitnesses.
Import Postproc.

Lemma remove_mixed_cells_witness :
  exists out : raster,
    rasters (final (remove_mixed Scenes.rebranded)) postproc_raster2
      = Some out /\
    holds_no 70 out /\
    forall p : pixel,
      match seen (rasters Scenes.rebranded) water_elevation p with
      | Some v => (v == 70 -> out p = None) /\ (~ v == 70 -> out p = Some v)
      | None => out p = None
      end.
Proof.
  apply (remove_mixed_cells Scenes.rebranded).
  apply succeeded_final. vm_compute. reflexivity.
Defined.

Lemma correct_coast_cells_witness :
  exists out : raster,
    rasters (final (correct_coast Scenes.filled)) coast_corrected = Some out /\
    forall p : pixel,
      match seen (rasters Scenes.filled) rounded p with
      | Some c =>
          (seen (rasters Scenes.filled) coastline p = None -> c == 40 ->
           out p = Some 50) /\
          (~ (seen (rasters Scenes.filled) coastline p = None /\ c == 40) ->
           out p = Some c)
      | None => out p = None
      end.
Proof.
  apply (correct_coast_cells Scenes.filled).
  apply succeeded_final. vm_compute. reflexivity.
Defined.

Lemma correct_elevation_cells_witness :
  exists out : raster,
    rasters (final (correct_elevation Scenes.coast_done)) elevation_corrected
      = Some out /\
    forall p : pixel,
      match seen (rasters Scenes.coast_done) dem p,
            seen (rasters Scenes.coast_done) coast_corrected p with
      | Some h, Some c =>
          (1500 < h -> c == 40 -> out p = Some 50) /\
          (800 < h -> c == 60 -> out p = Some 20) /\
          (~ (1500 < h /\ c == 40) -> ~ (800 < h /\ c == 60) ->
           out p = Some c)
      | _, _ => out p = None
      end.
Proof.
  apply (correct_elevation_cells Scenes.coast_done).
  apply succeeded_final. vm_compute. reflexivity.
Defined.

Lemma small_agriculture_cells_witness :
  exists out : raster,
    rasters (final (@correct_small_agriculture Samples.simple
                      Scenes.elevation_done)) agr_corrected = Some out /\
    forall p : pixel,
      let c := seen (rasters Scenes.elevation_done) elevation_corrected p in
      out p = c \/ (out p = Some 20 /\ exists cv, c = Some cv /\ cv == 60).
Proof.
  apply (@small_agriculture_cells Samples.simple Scenes.elevation_done _
           simple_reclass_area_keeps_null).
  apply succeeded_final. vm_compute. reflexivity.
Defined.

Lemma whole_cells (l : list (pixel * Z)) :
  whole (Samples.cells (map (fun c => (fst c, inject_Z (snd c))) l)).
Proof.
  induction l as [|[q z] rest IH]; intros p v; cbn.
  - discriminate.
  - destruct (Samples.pixel_eqb q p).
    + intros H. injection H as <-. now exists z.
    + apply IH.
Qed.

Lemma output_has_no_mixed_class_witness :
  exists out : raster,
    rasters (final (@main Samples.simple Scenes.valley)) output = Some out /\
    holds_no 70 out.
Proof.
  apply (@output_has_no_mixed_class Samples.simple Scenes.valley _
           (Samples.cells
              [((0, 0)%Z, 30); ((0, 1)%Z, 40); ((0, 2)%Z, 60);
               ((1, 0)%Z, 40); ((1, 1)%Z, 60);
               ((2, 0)%Z, 40); ((2, 1)%Z, 70); ((2, 2)%Z, 10)])).
  - intros rg r p v H. exists p. exact H.
  - reflexivity.
  - exact (whole_cells
             [((0, 0), 30); ((0, 1), 40); ((0, 2), 60); ((1, 0), 40);
              ((1, 1), 60); ((2, 0), 40); ((2, 1), 70); ((2, 2), 10)]%Z).
  - apply succeeded_final. vm_compute. reflexivity.
Defined.

End PostprocPassesWitnesses.

(** ** What the scripts leave behind *)

Lemma name_eq_dec (a b : name) : {a = b} + {a <> b}.
Proof.
  decide equality; try apply string_dec; apply Nat.eq_dec.
Qed.

Section Tidy.
Variable w0 : world.
Variables temps outputs : list name.

Let inv := tidy w0 temps outputs.

Lemma tidy_weaken (known known' : list name) (w : world) :
  incl known' known -> inv known w -> inv known' w.
Proof.
  intros Hincl (H1 & H2 & H3). repeat split; [exact H1| |exact H3].
  intros n Hn. apply H2, Hincl, Hn.
Qed.

Lemma hoare_bind {A B : Type} (Pre : world -> Prop) (Mid : A -> world -> Prop)
  (Post : B -> world -> Prop) (Exit : world -> Prop)
  (c : grass A) (k : A -> grass B) :
  hoare Pre c Mid Exit ->
  (forall a, hoare (Mid a) (k a) Post Exit) ->
  hoare Pre (bind c k) Post Exit.
Proof.
  intros Hc Hk w Hpre. unfold bind. specialize (Hc w Hpre).
  destruct (c w) as [a w1|msg w1]; [|exact Hc]. exact (Hk a w1 Hc).
Qed.

Lemma hoare_ret {A : Type} (Pre : world -> Prop) (Exit : world -> Prop) (a : A) :
  hoare Pre (ret a) (fun _ => Pre) Exit.
Proof. intros w H. exact H. Qed.

Lemma hoare_fatal {A : Type} (known : list name) (msg : string) (Post : A -> world -> Prop) :
  hoare (inv known) (fatal msg) Post (inv []).
Proof. intros w H. cbn. apply (tidy_weaken known); [intros n []|exact H]. Qed.

Lemma hoare_append (known : list name) (t : name) :
  In t temps ->
  hoare (inv known) (rm_rasters_append t) (fun _ => inv (t :: known)) (inv []).
Proof.
  intros Ht w (H1 & H2 & H3). cbn. repeat split.
  - intros n. destruct (H1 n) as [H|[H|H]]; auto.
    right. left. apply in_or_app. now left.
  - intros n [<-|Hn]; apply in_or_app; [right; now left | left; now apply H2].
  - intros n Hn. apply in_app_or in Hn as [Hn|[<-|[]]]; [now apply H3 | exact Ht].
Qed.

Lemma hoare_touch {A : Type} (known maps : list name) (c : grass A) :
  touches maps c ->
  (forall n, In n maps -> In n known \/ In n outputs) ->
  hoare (inv known) c (fun _ => inv known) (inv []).
Proof.
  intros Htouch Hmaps w (H1 & H2 & H3).
  destruct (Htouch w) as [Hframe Hrm].
  assert (Hinv : inv known (final (c w))).
  { repeat split.
    - intros n. rewrite Hrm.
      destruct (in_dec name_eq_dec n maps) as [Hin|Hout].
      + destruct (Hmaps n Hin) as [Hk|Ho]; [right; left; now apply H2 | now right; right].
      + rewrite (Hframe n Hout). apply H1.
    - now rewrite Hrm.
    - now rewrite Hrm. }
  destruct (c w) as [a w'|msg w']; cbn in Hinv; [exact Hinv|].
  apply (tidy_weaken known); [intros n []|exact Hinv].
Qed.

End Tidy.

Lemma hoare_post {A : Type} (Pre : world -> Prop) (c : grass A)
  (Post Post' : A -> world -> Prop) (Exit : world -> Prop) :
  hoare Pre c Post Exit ->
  (forall a w, Post a w -> Post' a w) ->
  hoare Pre c Post' Exit.
Proof.
  intros H Himp w Hpre. specialize (H w Hpre).
  destruct (c w); [now apply Himp | exact H].
Qed.

Section Touches.
Context {P : Primitives}.

Lemma touches_r_mapcalc (a : assignment) : touches [target a] (r_mapcalc a).
Proof.
  intros w. unfold r_mapcalc, bind, call, modify, get, write_raster, fatal. cbn.
  destruct (forallb _ _); cbn; split; try reflexivity.
  intros n Hn. unfold upd.
  destruct (name_eqb (target a) n) eqn:E; [|reflexivity].
  apply name_eqb_eq in E. exfalso. apply Hn. now left.
Qed.

Lemma touches_r_grow_distance (input value : name) :
  touches [value] (r_grow_distance input value).
Proof.
  intros w. unfold r_grow_distance, read_raster, need, bind, call, modify, get,
    ret, write_raster, fatal. cbn.
  destruct (rasters w input); cbn; split; try reflexivity.
  intros n Hn. unfold upd.
  destruct (name_eqb value n) eqn:E; [|reflexivity].
  apply name_eqb_eq in E. exfalso. apply Hn. now left.
Qed.

Lemma touches_r_reclass_area (input output : name) (mode : area_mode) (value : Q) :
  touches [output] (r_reclass_area input output mode value).
Proof.
  intros w. unfold r_reclass_area, read_raster, need, bind, call, modify, get,
    ret, write_raster, fatal. cbn.
  destruct (rasters w input); cbn; split; try reflexivity.
  intros n Hn. unfold upd.
  destruct (name_eqb output n) eqn:E; [|reflexivity].
  apply name_eqb_eq in E. exfalso. apply Hn. now left.
Qed.

End Touches.

Lemma remove_if_found_spec (x : name) (w : world) :
  exists w1, remove_if_found x w = Done tt w1 /\
    (forall n, rasters w1 n = if name_eqb x n then None else rasters w n) /\
    rm_rasters w1 = rm_rasters w.
Proof.
  unfold remove_if_found, find_file, g_remove_raster, delete_raster, bind, get,
    ret, call, modify, exists_raster. cbn.
  destruct (rasters w x) eqn:Hx; cbn; eexists; repeat split.
  intros n. destruct (name_eqb x n) eqn:E; [|reflexivity].
  apply name_eqb_eq in E. now subst.
Qed.

(** The loop of the exit handler never fails: it removes the listed maps
    and nothing else. *)
Lemma remove_listed (l : list name) :
  forall w, exists w',
    for_each l remove_if_found w = Done tt w' /\
    (forall n, rasters w' n = if listed n l then None else rasters w n) /\
    rm_rasters w' = rm_rasters w.
Proof.
  induction l as [|x rest IH]; intros w.
  - exists w. repeat split.
  - cbn [for_each]. unfold bind at 1.
    destruct (remove_if_found_spec x w) as (w1 & -> & Hr1 & Hm1).
    destruct (IH w1) as (w' & Hrun & Hr & Hm).
    exists w'. split; [exact Hrun|]. split; [|now rewrite Hm].
    intros n. rewrite Hr, Hr1. cbn [listed existsb].
    fold (listed n rest). now destruct (name_eqb x n), (listed n rest).
Qed.

Lemma listed_In (n : name) (l : list name) : listed n l = true <-> In n l.
Proof.
  unfold listed. rewrite existsb_exists. split.
  - intros (m & Hm & E). apply name_eqb_eq in E. now subst.
  - intros H. exists n. split; [exact H | apply name_eqb_refl].
Qed.

Lemma final_script (main cleanup : grass unit) (w : world) :
  final (script main cleanup w) = final (cleanup (final (main w))).
Proof. unfold script. destruct (main w); reflexivity. Qed.


(** A script whose main part is tidy leaves, once its exit handler has run,
    no temporary map behind and no other map changed than its outputs. *)
Lemma tidy_exit (w0 : world) (temps outs : list name) (main : grass unit) :
  hoare (tidy w0 temps outs []) main
    (fun _ => tidy w0 temps outs []) (tidy w0 temps outs []) ->
  rm_rasters w0 = [] ->
  (forall n, In n temps -> rasters w0 n = None) ->
  (forall n, In n temps -> ~ In n outs) ->
  forall w', w' = final (script main
                    (w <- get ;; for_each (rm_rasters w) remove_if_found) w0) ->
  (forall n, In n temps -> rasters w' n = None) /\
  (forall n, ~ In n temps -> ~ In n outs -> rasters w' n = rasters w0 n).
Proof.
  intros Hmain Hrm Hfresh Hapart w' ->. rewrite final_script.
  assert (Htidy : tidy w0 temps outs [] (final (main w0))).
  { pose proof (Hmain w0) as H.
    destruct (main w0); apply H; repeat split; auto;
      rewrite ?Hrm; intros n []. }
  destruct Htidy as (Hmaps & _ & Hlisted).
  destruct (remove_listed (rm_rasters (final (main w0))) (final (main w0)))
    as (w' & Hrun & Hr & _).
  change ((w <- get ;; for_each (rm_rasters w) remove_if_found)
            (final (main w0)))
    with (for_each (rm_rasters (final (main w0))) remove_if_found
            (final (main w0))).
  rewrite Hrun. cbn [final]. split.
  - intros n Hn. rewrite Hr.
    destruct (listed n (rm_rasters (final (main w0)))) eqn:Hl; [reflexivity|].
    destruct (Hmaps n) as [H|[H|H]].
    + rewrite H. now apply Hfresh.
    + apply listed_In in H. congruence.
    + now apply Hapart in Hn.
  - intros n Hn Hout. rewrite Hr.
    destruct (listed n (rm_rasters (final (main w0)))) eqn:Hl.
    + apply listed_In in Hl. exfalso. apply Hn, Hlisted, Hl.
    + destruct (Hmaps n) as [H|[H|H]]; [exact H| |contradiction].
      apply listed_In in H. congruence.
Qed.

Section PostprocTidy.
Import Postproc.
Context {P : Primitives}.

Ltac tidy_steps :=
  lazymatch goal with
  | |- hoare _ (bind _ _) _ _ =>
      eapply hoare_bind; [tidy_steps | intros; tidy_steps]
  | |- hoare _ (rm_rasters_append _) _ _ =>
      apply hoare_append; cbn; tauto
  | |- hoare _ (r_mapcalc _) _ _ =>
      eapply hoare_touch; [apply touches_r_mapcalc | cbn; intuition auto]
  | |- hoare _ (r_grow_distance _ _) _ _ =>
      eapply hoare_touch; [apply touches_r_grow_distance | cbn; intuition auto]
  | |- hoare _ (r_reclass_area _ _ _ _) _ _ =>
      eapply hoare_touch; [apply touches_r_reclass_area | cbn; intuition auto]
  end.

Lemma main_is_tidy (w0 : world) :
  hoare (tidy w0 postproc_temporaries [output] []) main
    (fun _ => tidy w0 postproc_temporaries [output] []) (tidy w0 postproc_temporaries [output] []).
Proof.
  eapply hoare_post.
  - unfold main, rebrand_high_water, remove_mixed, fill_gaps, correct_coast,
      correct_elevation, correct_small_agriculture, remove_builtup_on_water.
    tidy_steps.
  - intros a w. apply tidy_weaken. intros n [].
Qed.


(** X6.  However r.incora.postproc ends, once its exit handler has run none
    of its temporary maps exists and no other map than the output has
    changed, when it starts with an empty removal list and no map of a
    temporary name. *)
Theorem postproc_leaves_only_the_output (w0 : world) :
  rm_rasters w0 = [] ->
  (forall n, In n postproc_temporaries -> rasters w0 n = None) ->
  (forall n, In n postproc_temporaries ->
     rasters (final (script main cleanup w0)) n = None) /\
  (forall n, ~ In n postproc_temporaries -> n <> output ->
     rasters (final (script main cleanup w0)) n = rasters w0 n).
Proof.
  intros Hrm Hfresh.
  destruct (tidy_exit w0 postproc_temporaries [output] main (main_is_tidy w0) Hrm Hfresh)
    with (w' := final (script main cleanup w0)) as [H1 H2].
  - intros n Hn [<-|[]]. cbn in Hn.
    repeat (destruct Hn as [Hn|Hn]; [discriminate Hn|]). destruct Hn.
  - reflexivity.
  - split; [exact H1|]. intros n Hn Hout. apply H2; [exact Hn|].
    intros [<-|[]]. now apply Hout.
Qed.

End PostprocTidy.

Lemma hoare_for_each {A : Type} (Inv Exit : world -> Prop) (l : list A)
  (f : A -> grass unit) :
  (forall x, In x l -> hoare Inv (f x) (fun _ => Inv) Exit) ->
  hoare Inv (for_each l f) (fun _ => Inv) Exit.
Proof.
  induction l as [|x rest IH]; intros Hbody.
  - intros w H. exact H.
  - cbn [for_each]. eapply hoare_bind.
    + apply Hbody. now left.
    + intros u. apply IH. intros y Hy. apply Hbody. now right.
Qed.

Section TouchesChange.
Context {P : Primitives}.

Lemma touches_find_program (m : string) : touches [] (find_program m).
Proof. intros w. split; reflexivity. Qed.

Lemma touches_r_change_stats (a b output : name) (ws : option Z) :
  touches [output] (r_change_stats a b output ws).
Proof.
  intros w. unfold r_change_stats, read_raster, need, bind, call, modify, get,
    ret, write_raster, fatal. cbn.
  destruct (rasters w a); cbn; [|split; reflexivity].
  destruct (rasters w b); cbn; split; try reflexivity.
  intros n Hn. unfold upd.
  destruct (name_eqb output n) eqn:E; [|reflexivity].
  apply name_eqb_eq in E. exfalso. apply Hn. now left.
Qed.

Lemma touches_r_change_info (a b : name) (size : Z) (step : Q) (output : name) :
  touches [output] (r_change_info a b size step output).
Proof.
  intros w. unfold r_change_info, read_raster, need, bind, call, modify, get,
    ret, write_raster, fatal. cbn.
  destruct (rasters w a); cbn; [|split; reflexivity].
  destruct (rasters w b); cbn; split; try reflexivity.
  intros n Hn. unfold upd.
  destruct (name_eqb output n) eqn:E; [|reflexivity].
  apply name_eqb_eq in E. exfalso. apply Hn. now left.
Qed.

End TouchesChange.

Section ChangeTidy.
Import Change.
Context {P : Primitives}.
Variable o : options.

Variable w0 : world.
Let inv := tidy w0 (change_temporaries o) (change_outputs o).

Ltac tidy_steps :=
  lazymatch goal with
  | |- hoare _ (bind _ _) _ _ =>
      eapply hoare_bind; [tidy_steps | intros; tidy_steps]
  | |- hoare _ (rm_rasters_append _) _ _ =>
      apply hoare_append; cbn; tauto
  | |- hoare _ (r_mapcalc _) _ _ =>
      eapply hoare_touch; [apply touches_r_mapcalc | cbn; intuition auto]
  | |- hoare _ (r_reclass_area _ _ _ _) _ _ =>
      eapply hoare_touch; [apply touches_r_reclass_area | cbn; intuition auto]
  | |- hoare _ (r_change_stats _ _ _ _) _ _ =>
      eapply hoare_touch; [apply touches_r_change_stats | cbn; intuition auto]
  | |- hoare _ (r_change_info _ _ _ _ _) _ _ =>
      eapply hoare_touch; [apply touches_r_change_info | cbn; intuition auto]
  | |- hoare _ (find_program _) _ _ =>
      eapply hoare_touch; [apply touches_find_program | intros ? []]
  | |- hoare _ (if ?b then fatal _ else ret tt) _ _ =>
      destruct b; [apply hoare_fatal | apply hoare_ret]
  end.

Lemma outrast_cd_known (known : list name) :
  (given (output_cd o) = false -> In (Tmp "cd_rast") known) ->
  In (outrast_cd o) known \/ In (outrast_cd o) (change_outputs o).
Proof.
  unfold outrast_cd, change_outputs. destruct (given (output_cd o)).
  - intros _. right. now left.
  - intros H. left. now apply H.
Qed.

Let known1 : list name :=
  if given (output_cd o) then [] else [Tmp "cd_rast"].

Lemma known1_outrast (known : list name) :
  incl known1 known ->
  forall n, In n [outrast_cd o] -> In n known \/ In n (change_outputs o).
Proof.
  intros Hincl n [<-|[]]. apply outrast_cd_known. intros Hg.
  apply Hincl. unfold known1. rewrite Hg. now left.
Qed.

Lemma change_main_is_tidy (flag_f : bool) :
  hoare (inv []) (main o flag_f) (fun _ => inv []) (inv []).
Proof.
  set (known3 := gainmap :: cd_temprast :: known1).
  unfold main. eapply hoare_bind.
  { unfold check_input. tidy_steps. }
  intros ?; cbv beta. apply hoare_bind with (Mid := fun _ => inv (cd_temprast :: known1)).
  { unfold change_detection.
    apply hoare_bind with (Mid := fun _ => inv known1).
    { unfold known1, outrast_cd. destruct (given (output_cd o)).
      - apply hoare_ret.
      - apply hoare_append. cbn. tauto. }
    intros ?; cbv beta. tidy_steps. }
  intros ?; cbv beta. apply hoare_bind with (Mid := fun _ => inv known3).
  { unfold information_gain. tidy_steps. }
  intros ?; cbv beta. apply hoare_bind with (Mid := fun _ => inv known3).
  { unfold gate. destruct (0 <? _)%nat; [|apply hoare_ret].
    apply hoare_post with (Post := fun _ => inv (tempraster_1 :: known3));
      [|intros ? ?; apply tidy_weaken; intros n Hn; now right].
    eapply hoare_bind; [apply hoare_append; cbn; tauto|].
    intros ?; cbv beta. eapply hoare_bind.
    - eapply hoare_touch; [apply touches_r_mapcalc|].
      apply known1_outrast. intros n Hn. now do 3 right.
    - intros ?; cbv beta. tidy_steps. }
  intros ?; cbv beta. apply hoare_post with (Post := fun _ => inv known3);
    [|intros ? ?; apply tidy_weaken; intros n []].
  apply hoare_for_each. intros [item value] Hin. unfold change_raster.
  apply hoare_post with (Post := fun _ => inv (tempraster_2 item :: known3));
    [|intros ? ?; apply tidy_weaken; intros n Hn; now right].
  eapply hoare_bind.
  { apply hoare_append. unfold change_temporaries. apply in_or_app. right.
    apply (in_map (fun used_item => tempraster_2 (fst used_item)) _ _ Hin). }
  intros ?; cbv beta. eapply hoare_bind.
  { eapply hoare_touch; [apply touches_r_mapcalc|].
    intros n [<-|[]]. left. now left. }
  intros ?; cbv beta. eapply hoare_touch; [apply touches_r_reclass_area|].
  intros n [<-|[]]. right. unfold change_outputs. apply in_or_app. right.
  apply (in_map fst _ _ Hin).
Qed.

Lemma temporaries_apart (n : name) : In n (change_temporaries o) -> ~ In n (change_outputs o).
Proof.
  unfold change_temporaries, change_outputs. intros Ht Ho.
  assert (Hopt : exists k, n = Opt k).
  { apply in_app_or in Ho as [Ho|Ho].
    - destruct (given (output_cd o)); [|destruct Ho].
      destruct Ho as [<-|[]]. now eexists.
    - apply in_map_iff in Ho as ([item value] & <- & Hin).
      unfold output_used in Hin. apply used_in in Hin. cbn in Hin.
      repeat (destruct Hin as [<-|Hin]; [now eexists|]). destruct Hin. }
  destruct Hopt as [k ->].
  apply in_app_or in Ht as [Ht|Ht].
  - cbn in Ht. repeat (destruct Ht as [Ht|Ht]; [discriminate Ht|]). destruct Ht.
  - apply in_map_iff in Ht as (x & Hx & _). discriminate Hx.
Qed.

End ChangeTidy.

Section ChangeExit.
Import Change.
Context {P : Primitives}.

(** X7.  However r.incora.change ends, once its exit handler has run none of
    its temporary maps exists and no other map than the outputs the user
    named has changed, when it starts with an empty removal list and no map
    of a temporary name. *)
Theorem change_leaves_only_the_outputs (o : options) (flag_f : bool)
  (w0 : world) :
  rm_rasters w0 = [] ->
  (forall n, In n (change_temporaries o) -> rasters w0 n = None) ->
  (forall n, In n (change_temporaries o) ->
     rasters (final (script (main o flag_f) cleanup w0)) n = None) /\
  (forall n, ~ In n (change_temporaries o) -> ~ In n (change_outputs o) ->
     rasters (final (script (main o flag_f) cleanup w0)) n = rasters w0 n).
Proof.
  intros Hrm Hfresh.
  apply (tidy_exit w0 (change_temporaries o) (change_outputs o) (main o flag_f)
           (change_main_is_tidy o w0 flag_f) Hrm Hfresh (temporaries_apart o)).
  reflexivity.
Qed.

End ChangeExit.

Section ExitWitnesses.

Lemma postproc_leaves_only_the_output_witness :
  (forall n, In n postproc_temporaries ->
     rasters (final (script (@Postproc.main Samples.simple) Postproc.cleanup
                       Scenes.valley)) n = None) /\
  (forall n, ~ In n postproc_temporaries -> n <> Postproc.output ->
     rasters (final (script (@Postproc.main Samples.simple) Postproc.cleanup
                       Scenes.valley)) n = rasters Scenes.valley n).
Proof.
  apply (@postproc_leaves_only_the_output Samples.simple Scenes.valley).
  - reflexivity.
  - intros n Hn. cbn in Hn.
    repeat (destruct Hn as [<-|Hn]; [reflexivity|]). destruct Hn.
Defined.

Lemma change_leaves_only_the_outputs_witness :
  let o := Samples.change_options "t1,t2" in
  let w' := final (script (@Change.main Samples.simple o false) Change.cleanup
                     Samples.two_dates) in
  (forall n, In n (change_temporaries o) -> rasters w' n = None) /\
  (forall n, ~ In n (change_temporaries o) -> ~ In n (change_outputs o) ->
     rasters w' n = rasters Samples.two_dates n).
Proof.
  intros o w'.
  apply (@change_leaves_only_the_outputs Samples.simple o false
           Samples.two_dates).
  - reflexivity.
  - intros n Hn. cbn in Hn.
    repeat (destruct Hn as [<-|Hn]; [reflexivity|]). destruct Hn.
Defined.

End ExitWitnesses.

(** ** The gate of r.incora.change *)

Section ChangeEdges.
Import Change.
Context {P : Primitives}.






End ChangeEdges.

Section ChangeEdgesWitnesses.
Import Change.



(** C5, at a failing input.  r.incora.change is asked for the total change
    map and for no class output.  The run ends without error; the
    information gain at the cell (0,0) is 0.3, below the threshold 0.5, and
    the raw change there is 1.  No gated raster has been made: the map
    named by [output_cd] exists neither when [main] returns nor after the
    exit handler, so nothing has set that cell to 0. *)
Theorem total_map_is_never_made :
  let o := Scenes.total_only in
  let w := Samples.two_dates in
  let done := @main Samples.simple o false w in
  let exit := script (@main Samples.simple o false) cleanup w in
  given (output_cd o) = true /\
  outrast_cd o = Opt "output_cd" /\
  output_used o = [] /\
  succeeded done = true /\
  seen (rasters (final done)) gainmap (0, 0)%Z = Some (3 # 10) /\
  3 # 10 <= gain_thresh o /\
  seen (rasters (final done)) cd_temprast (0, 0)%Z = Some 1 /\
  rasters (final done) (outrast_cd o) = None /\
  succeeded exit = true /\
  rasters (final exit) (outrast_cd o) = None.
Proof.
  cbv zeta. repeat split; try (vm_compute; reflexivity).
  vm_compute. discriminate.
Qed.

End ChangeEdgesWitnesses.

(** ** The class rules of v.incora.training_data *)

Section ClassRules.
Import Training.
Context {P : Primitives}.












(** *** Bare soil: the coarse region *)










End ClassRules.

Section ClassRulesWitnesses.
Import Training.







End ClassRulesWitnesses.

